(** * Warehouse client: the remote-table synchronisation layer

    A shallow embedding of the TypeScript sources of the client
    ([useGet.ts], the entity tables, the outcome-note form and the report
    component) together with the properties the design document states
    about them.

    Conventions of the embedding:
    - a JavaScript [number] is an IEEE-754 binary64 value: the kernel's
      primitive [float];
    - a JavaScript string is a [string] holding its UTF-8 bytes;
    - [None] is [undefined] for an optional field ([total?: number], a
      key that is absent); it stands for [null] as well only where the
      declared type admits [null] ([string | null]);
    - an object used as a dictionary ([URLSearchParams], an error record)
      is an association list in insertion order;
    - [async] code runs in the monad [Async] over an explicit [World]
      (the scripted network, the shared URL object, the query cache and the
      component state). *)

From Stdlib Require Import ZArith List String Ascii Bool Lia DecimalString.
From Stdlib Require Import Floats.PrimFloat Floats.SpecFloat Floats.FloatOps.
From Stdlib Require Import Uint63.
Import ListNotations.

Set Implicit Arguments.
Set Warnings "-inexact-float,-register-all".
Local Open Scope string_scope.
Local Open Scope Z_scope.

(* ================================================================== *)
(** ** JavaScript built-ins used by the sources *)
(* ================================================================== *)

Module JS.

(** *** Strings *)

Definition byte_is (c : ascii) (n : N) : bool := N.eqb (N_of_ascii c) n.

Definition byte_in (c : ascii) (lo hi : N) : bool :=
  (N.leb lo (N_of_ascii c) && N.leb (N_of_ascii c) hi)%bool.

(** White space and line terminators of ECMAScript, by UTF-8 length:
    U+0009..U+000D and U+0020; U+00A0; U+1680, U+2000..U+200A, U+2028,
    U+2029, U+202F, U+205F, U+3000 and U+FEFF. *)
Definition is_ws1 (c : ascii) : bool :=
  (byte_in c 9 13 || byte_is c 32)%bool.

Definition is_ws2 (c1 c2 : ascii) : bool :=
  (byte_is c1 194 && byte_is c2 160)%bool.

Definition is_ws3 (c1 c2 c3 : ascii) : bool :=
  ((byte_is c1 225 && byte_is c2 154 && byte_is c3 128)
   || (byte_is c1 226 && byte_is c2 128
       && (byte_in c3 128 138 || byte_in c3 168 169 || byte_is c3 175))
   || (byte_is c1 226 && byte_is c2 129 && byte_is c3 159)
   || (byte_is c1 227 && byte_is c2 128 && byte_is c3 128)
   || (byte_is c1 239 && byte_is c2 187 && byte_is c3 191))%bool.

(** [String.prototype.trimStart]. *)
Fixpoint trimStart (s : string) : string :=
  match s with
  | EmptyString => EmptyString
  | String c1 r1 =>
      if is_ws1 c1 then trimStart r1
      else match r1 with
           | EmptyString => s
           | String c2 r2 =>
               if is_ws2 c1 c2 then trimStart r2
               else match r2 with
                    | EmptyString => s
                    | String c3 r3 =>
                        if is_ws3 c1 c2 c3 then trimStart r3 else s
                    end
           end
  end.

(** The same scan over the reversed byte sequence, for [trimEnd]. *)
Fixpoint trimStart_rev (l : list ascii) : list ascii :=
  match l with
  | [] => []
  | c1 :: r1 =>
      if is_ws1 c1 then trimStart_rev r1
      else match r1 with
           | [] => l
           | c2 :: r2 =>
               if is_ws2 c2 c1 then trimStart_rev r2
               else match r2 with
                    | [] => l
                    | c3 :: r3 =>
                        if is_ws3 c3 c2 c1 then trimStart_rev r3 else l
                    end
           end
  end.

Definition trimEnd (s : string) : string :=
  string_of_list_ascii
    (List.rev (trimStart_rev (List.rev (list_ascii_of_string s)))).

(** [String.prototype.trim]. *)
Definition trim (s : string) : string := trimEnd (trimStart s).

(** Truthiness of a [string | null | undefined] value. *)
Definition truthy_string (s : option string) : bool :=
  match s with
  | None => false
  | Some t => negb (String.eqb t "")
  end.

Fixpoint repeat_string (n : nat) (s : string) : string :=
  match n with
  | O => ""
  | S k => s ++ repeat_string k s
  end.

(** [Array.prototype.join]. *)
Definition join (sep : string) (l : list string) : string :=
  String.concat sep l.

(** *** Numbers *)

(** Decimal digits of a non-negative integer. *)
Definition decimal (n : Z) : string :=
  NilZero.string_of_uint (N.to_uint (Z.to_N n)).

Definition is_digit (c : ascii) : bool := byte_in c 48 57.

Definition isNaN (x : float) : bool := PrimFloat.is_nan x.

(** Truthiness of a number: every value but [0], [-0] and [NaN]. *)
Definition truthy_number (x : float) : bool :=
  negb (PrimFloat.is_zero x || PrimFloat.is_nan x).

Definition truthy_opt_number (x : option float) : bool :=
  match x with
  | None => false
  | Some v => truthy_number v
  end.

(** [Number.isInteger]: finite and without fractional part. *)
Definition Number_isInteger (x : float) : bool :=
  match Prim2SF x with
  | S754_zero _ => true
  | S754_finite _ m e =>
      if 0 <=? e then true else Z.eqb (Z.pos m mod 2 ^ (- e)) 0
  | _ => false
  end.

(** The exact value of a finite non-zero binary64 [m * 2^e] as a
    fraction, in quarter units of its last place: value [4m * 2^(e-2)],
    upper rounding boundary [4m+2], lower boundary [4m-2] (or [4m-1] at
    the bottom of a binade, where the gap below is half as wide). *)
Record exact := {
  ex_val : Z;   (* numerator of the value *)
  ex_lo : Z;    (* numerator of the lower rounding boundary *)
  ex_hi : Z;    (* numerator of the upper rounding boundary *)
  ex_den : Z;   (* common denominator, a power of two *)
  ex_closed : bool  (* boundaries round to the value (even mantissa) *)
}.

Definition exact_of (m : positive) (e : Z) : exact :=
  let up := 2 ^ Z.max (e - 2) 0 in
  let low_gap :=
    if (Z.eqb (Z.pos m) (2 ^ 52) && (-1074 <? e))%bool then 1 else 2 in
  {| ex_val := 4 * Z.pos m * up;
     ex_lo := (4 * Z.pos m - low_gap) * up;
     ex_hi := (4 * Z.pos m + 2) * up;
     ex_den := 2 ^ Z.max (2 - e) 0;
     ex_closed := Z.even (Z.pos m) |}.

(** [v < 10^n] for the fraction [v = num/den]. *)
Definition below_pow10 (num den n : Z) : bool :=
  if 0 <=? n then num <? 10 ^ n * den else num * 10 ^ (- n) <? den.

(** The least [n] in [lo, lo + fuel] with [v < 10^n]. *)
Fixpoint decimal_exponent (fuel : nat) (num den n : Z) : Z :=
  match fuel with
  | O => n
  | S k => if below_pow10 num den n then n
           else decimal_exponent k num den (n + 1)
  end.

(** For [k] significant digits and decimal exponent [n], the integer [s]
    with [s * 10^(n-k)] inside the rounding interval of the value and
    closest to it (the even one on a tie), when there is one. *)
Definition digits_candidate (x : exact) (n k : Z) : option (Z * Z) :=
  let p := n - k in
  let up := 10 ^ Z.max (- p) 0 in
  let b := ex_den x * 10 ^ Z.max p 0 in
  let a := ex_val x * up in
  let lo := ex_lo x * up in
  let hi := ex_hi x * up in
  let inside c :=
    if ex_closed x then ((lo <=? c * b) && (c * b <=? hi))%bool
    else ((lo <? c * b) && (c * b <? hi))%bool in
  let f := a / b in
  let pick :=
    match inside f, inside (f + 1) with
    | true, true =>
        let d1 := a - f * b in
        let d2 := (f + 1) * b - a in
        if d1 <? d2 then Some f
        else if d2 <? d1 then Some (f + 1)
        else if Z.even f then Some f else Some (f + 1)
    | true, false => Some f
    | false, true => Some (f + 1)
    | false, false => None
    end in
  match pick with
  | Some s => if Z.eqb s (10 ^ k) then Some (10 ^ (k - 1), n + 1)
              else Some (s, n)
  | None => None
  end.

(** The shortest digit string that reads back as the value: [(s, n, k)]
    with [k] as small as possible. *)
Fixpoint shortest_digits (fuel : nat) (x : exact) (n k : Z) : Z * Z * Z :=
  match fuel with
  | O => (ex_val x / ex_den x, n, k)
  | S f =>
      match digits_candidate x n k with
      | Some (s, n') => (s, n', k)
      | None => shortest_digits f x n (k + 1)
      end
  end.

(** [Number::toString] of a positive finite value, radix 10. *)
Definition positive_toString (m : positive) (e : Z) : string :=
  let x := exact_of m e in
  let n0 := decimal_exponent 640 (ex_val x) (ex_den x) (-325) in
  let '(s, n, k) := shortest_digits 21 x n0 1 in
  let ds := decimal s in
  if ((k <=? n) && (n <=? 21))%bool then
    ds ++ repeat_string (Z.to_nat (n - k)) "0"
  else if ((0 <? n) && (n <=? 21))%bool then
    substring 0 (Z.to_nat n) ds ++ "."
      ++ substring (Z.to_nat n) (Z.to_nat (k - n)) ds
  else if ((-6 <? n) && (n <=? 0))%bool then
    "0." ++ repeat_string (Z.to_nat (- n)) "0" ++ ds
  else
    let sign := if 0 <=? n - 1 then "+" else "-" in
    let ex := decimal (Z.abs (n - 1)) in
    if Z.eqb k 1 then ds ++ "e" ++ sign ++ ex
    else substring 0 1 ds ++ "."
           ++ substring 1 (Z.to_nat (k - 1)) ds ++ "e" ++ sign ++ ex.

(** [Number::toString(x)], the conversion a template literal applies. *)
Definition Number_toString (x : float) : string :=
  match Prim2SF x with
  | S754_nan => "NaN"
  | S754_zero _ => "0"
  | S754_infinity false => "Infinity"
  | S754_infinity true => "-Infinity"
  | S754_finite sg m e =>
      (if sg then "-" else "") ++ positive_toString m e
  end.

(** The digits of [Number.prototype.toFixed(2)] for the integer [n] of
    hundredths: pad to three digits, then split before the last two. *)
Definition fixed2_digits (n : Z) : string :=
  let m := list_ascii_of_string (decimal n) in
  let k := List.length m in
  let m' := if Nat.leb k 2 then (List.repeat "0"%char (3 - k) ++ m)%list else m in
  let k' := List.length m' in
  string_of_list_ascii
    (firstn (k' - 2) m' ++ "."%char :: skipn (k' - 2) m')%list.

(** [x >= 10^21] for the positive value [m * 2^e]. *)
Definition at_least_1e21 (m : positive) (e : Z) : bool :=
  let x := exact_of m e in
  10 ^ 21 * ex_den x <=? ex_val x.

(** A finite number of magnitude below [10^21]: the range in which
    [toFixed] writes fixed notation. *)
Definition finite_below_1e21 (x : float) : bool :=
  match Prim2SF x with
  | S754_zero _ => true
  | S754_finite _ m e => negb (at_least_1e21 m e)
  | _ => false
  end.

(** Recogniser of fixed notation with two decimals: an optional minus
    sign, one digit at least, a point and two digits. *)
Definition unsigned_two_decimals (l : list ascii) : bool :=
  match List.rev l with
  | d2 :: d1 :: dot :: ip =>
      (is_digit d2 && is_digit d1 && Ascii.eqb dot "."
       && negb (Nat.eqb (List.length ip) 0) && forallb is_digit ip)%bool
  | _ => false
  end.

Definition has_two_decimals (s : string) : bool :=
  match s with
  | String c r =>
      if Ascii.eqb c "-" then unsigned_two_decimals (list_ascii_of_string r)
      else unsigned_two_decimals (list_ascii_of_string s)
  | EmptyString => false
  end.

(** The integer [n] for which [n / 100 - x] is closest to zero, the
    larger one when two are equally close. *)
Definition nearest_hundredths (m : positive) (e : Z) : Z :=
  let x := exact_of m e in
  (200 * ex_val x + ex_den x) / (2 * ex_den x).

(** [Number.prototype.toFixed(2)]. *)
Definition toFixed2 (x : float) : string :=
  match Prim2SF x with
  | S754_nan => "NaN"
  | S754_infinity false => "Infinity"
  | S754_infinity true => "-Infinity"
  | S754_zero _ => fixed2_digits 0
  | S754_finite sg m e =>
      (if sg then "-" else "")
        ++ (if at_least_1e21 m e then positive_toString m e
            else fixed2_digits (nearest_hundredths m e))
  end.

End JS.

(* ================================================================== *)
(** ** JSON values and [JSON.stringify] *)
(* ================================================================== *)

Module JSON.

Inductive json : Type :=
  | JNull
  | JBool (b : bool)
  | JNum (x : float)
  | JStr (s : string)
  | JArr (items : list json)
  | JObj (fields : list (string * json)).

Definition hex_digit (n : N) : ascii :=
  ascii_of_N (if N.ltb n 10 then 48 + n else 87 + n).

Definition backslash : string := String (ascii_of_N 92) "".

(** [QuoteJSONString], one byte at a time: the short escapes, [\u00XX]
    for the other control characters, everything else unchanged. *)
Definition escape_byte (c : ascii) : string :=
  let n := N_of_ascii c in
  if N.eqb n 8 then backslash ++ "b"
  else if N.eqb n 9 then backslash ++ "t"
  else if N.eqb n 10 then backslash ++ "n"
  else if N.eqb n 12 then backslash ++ "f"
  else if N.eqb n 13 then backslash ++ "r"
  else if N.eqb n 34 then backslash ++ String c ""
  else if N.eqb n 92 then backslash ++ backslash
  else if N.ltb n 32 then
    backslash ++ "u00" ++ String (hex_digit (N.div n 16)) (String (hex_digit (N.modulo n 16)) "")
  else String c "".

Fixpoint escape (s : string) : string :=
  match s with
  | EmptyString => ""
  | String c r => escape_byte c ++ escape r
  end.

Definition dquote : string := String (ascii_of_N 34) "".

Definition quote (s : string) : string := dquote ++ escape s ++ dquote.

(** [JSON.stringify(value)] without indentation. *)
Fixpoint stringify (j : json) : string :=
  match j with
  | JNull => "null"
  | JBool true => "true"
  | JBool false => "false"
  | JNum x => if PrimFloat.is_finite x then JS.Number_toString x else "null"
  | JStr s => quote s
  | JArr items => "[" ++ JS.join "," (List.map stringify items) ++ "]"
  | JObj fields =>
      "{" ++ JS.join ","
               (List.map (fun kv => quote (fst kv) ++ ":" ++ stringify (snd kv))
                         fields)
          ++ "}"
  end.

End JSON.
Import JSON.

(* ================================================================== *)
(** ** The web platform: [URL], [fetch] and promises *)
(* ================================================================== *)

Module Web.

(** An object used as a string-keyed dictionary, in insertion order. *)
Definition dict (V : Type) : Type := list (string * V).

Fixpoint lookup {V} (k : string) (d : dict V) : option V :=
  match d with
  | [] => None
  | (k', v) :: r => if String.eqb k' k then Some v else lookup k r
  end.

Fixpoint remove {V} (k : string) (d : dict V) : dict V :=
  match d with
  | [] => []
  | (k', v) :: r =>
      if String.eqb k' k then remove k r else (k', v) :: remove k r
  end.

(** [URLSearchParams.prototype.set]: the first pair named [k] takes the
    value and the later ones are removed; without one, the pair is
    appended. *)
Fixpoint set {V} (k : string) (v : V) (d : dict V) : dict V :=
  match d with
  | [] => [(k, v)]
  | (k', v') :: r =>
      if String.eqb k' k then (k, v) :: remove k r
      else (k', v') :: set k v r
  end.

(** [Object.values]. *)
Definition values {V} (d : dict V) : list V := List.map snd d.

(** A [URL] object: what precedes the query, and its [searchParams]. *)
Record URL := {
  url_base : string;
  searchParams : dict string
}.

(** [new URL(s, origin)] for an absolute [s] without a query. *)
Definition new_URL (s : string) : URL :=
  {| url_base := s; searchParams := [] |}.

Definition searchParams_set (k v : string) (u : URL) : URL :=
  {| url_base := url_base u; searchParams := set k v (searchParams u) |}.

Definition searchParams_get (k : string) (u : URL) : option string :=
  lookup k (searchParams u).

Definition searchParams_has (k : string) (u : URL) : bool :=
  match searchParams_get k u with Some _ => true | None => false end.

Definition upper_hex_digit (n : N) : ascii :=
  ascii_of_N (if N.ltb n 10 then 48 + n else 55 + n).

(** The [application/x-www-form-urlencoded] byte serialiser. *)
Definition urlencode_byte (c : ascii) : string :=
  let n := N_of_ascii c in
  if (JS.byte_in c 48 57 || JS.byte_in c 65 90 || JS.byte_in c 97 122
      || JS.byte_is c 42 || JS.byte_is c 45 || JS.byte_is c 46
      || JS.byte_is c 95)%bool
  then String c ""
  else if JS.byte_is c 32 then "+"
  else String "%" (String (upper_hex_digit (N.div n 16))
                     (String (upper_hex_digit (N.modulo n 16)) "")).

Fixpoint urlencode (s : string) : string :=
  match s with
  | EmptyString => ""
  | String c r => urlencode_byte c ++ urlencode r
  end.

(** [URL.prototype.href]. *)
Definition href (u : URL) : string :=
  match searchParams u with
  | [] => url_base u
  | ps => url_base u ++ "?"
            ++ JS.join "&"
                 (List.map (fun kv => urlencode (fst kv) ++ "=" ++ urlencode (snd kv))
                           ps)
  end.

Inductive Method := GET | POST | PUT | DELETE.

(** One call of [fetch]: the URL as sent (its [href] is the wire form),
    the method, the headers and the body. *)
Record Request := {
  req_method : Method;
  req_url : URL;
  req_headers : dict string;
  req_body : option string
}.

(** A [Response]: [ok] (status in 200..299) and the body as [json()]
    would parse it, [None] when the body is not JSON. *)
Record Response := {
  ok : bool;
  json_body : option json
}.

Inductive FetchOutcome :=
  | NetworkError
  | Responded (r : Response).

End Web.
Import Web.

(* ================================================================== *)
(** ** The query cache of [@tanstack/react-query] *)
(* ================================================================== *)

Module TanStack.

Definition QueryKey := list json.

Inductive Status := pending | success | error.

Definition Status_eqb (a b : Status) : bool :=
  match a, b with
  | pending, pending | success, success | error, error => true
  | _, _ => false
  end.

(** The state of one cached query. *)
Record Query := {
  queryKey : QueryKey;
  q_data : option json;
  q_status : Status;
  q_isInvalidated : bool
}.

(** [a === b] on two values of which one at least is primitive; two
    object values are compared structurally by the caller. *)
Definition strict_eq_prim (a b : json) : bool :=
  match a, b with
  | JNull, JNull => true
  | JBool x, JBool y => Bool.eqb x y
  | JNum x, JNum y => PrimFloat.eqb x y
  | JStr x, JStr y => String.eqb x y
  | _, _ => false
  end.

Definition float_of_nat (n : nat) : float :=
  PrimFloat.of_uint63 (Uint63.of_Z (Z.of_nat n)).

(** The position of an array element named by the property key [k]. *)
Fixpoint index_named (k : string) (i n : nat) : option nat :=
  match n with
  | O => None
  | S n' => if String.eqb (JS.decimal (Z.of_nat i)) k then Some i
            else index_named k (S i) n'
  end.

(** Property access [a[k]]; [None] is [undefined]. *)
Definition getProp (a : json) (k : string) : option json :=
  match a with
  | JObj fields => lookup k fields
  | JArr items =>
      if String.eqb k "length" then Some (JNum (float_of_nat (List.length items)))
      else match index_named k 0 (List.length items) with
           | Some i => nth_error items i
           | None => None
           end
  | _ => None
  end.

(** [partialMatchKey(a, b)]: [a === b], or both are objects and every
    own property of [b] partially matches the same property of [a]. *)
Fixpoint partialMatch (a : option json) (b : json) {struct b} : bool :=
  match a with
  | None => false
  | Some a' =>
      match b with
      | JArr items =>
          match a' with
          | JArr _ | JObj _ =>
              (fix each (i : nat) (bs : list json) : bool :=
                 match bs with
                 | [] => true
                 | b0 :: r =>
                     (partialMatch (getProp a' (JS.decimal (Z.of_nat i))) b0
                      && each (S i) r)%bool
                 end) O items
          | _ => false
          end
      | JObj fields =>
          match a' with
          | JArr _ | JObj _ =>
              (fix each (fs : list (string * json)) : bool :=
                 match fs with
                 | [] => true
                 | (k, v) :: r =>
                     (partialMatch (getProp a' k) v && each r)%bool
                 end) fields
          | _ => false
          end
      | _ => strict_eq_prim a' b
      end
  end.

Definition partialMatchKey (a b : QueryKey) : bool :=
  partialMatch (Some (JArr a)) (JArr b).

Fixpoint insert_field (kv : string * json) (fs : list (string * json))
  : list (string * json) :=
  match fs with
  | [] => [kv]
  | kv' :: r =>
      if String.leb (fst kv) (fst kv') then kv :: fs
      else kv' :: insert_field kv r
  end.

(** The value with the properties of every object in key order, as the
    replacer of [hashKey] rebuilds it. *)
Fixpoint sort_fields (j : json) : json :=
  match j with
  | JArr items => JArr (List.map sort_fields items)
  | JObj fields =>
      JObj (List.fold_right insert_field []
              (List.map (fun kv => (fst kv, sort_fields (snd kv))) fields))
  | _ => j
  end.

(** [hashKey]: the cache index of a key, its JSON text with sorted
    object properties. *)
Definition hashKey (k : QueryKey) : string :=
  stringify (sort_fields (JArr k)).

Definition QueryCache := list Query.

Fixpoint find_query (h : string) (c : QueryCache) : option Query :=
  match c with
  | [] => None
  | q :: r => if String.eqb (hashKey (queryKey q)) h then Some q
              else find_query h r
  end.

(** The outcome of a promise. *)
Inductive Result (A : Type) :=
  | Resolved (a : A)
  | Rejected (msg : string).
Arguments Resolved {A} a.
Arguments Rejected {A} msg.

(** The query reducer on the settlement of the query function: success
    stores the data; an error keeps the data and flags the query. *)
Definition settle (r : Result json) (q : Query) : Query :=
  match r with
  | Resolved d =>
      {| queryKey := queryKey q; q_data := Some d; q_status := success;
         q_isInvalidated := false |}
  | Rejected _ =>
      {| queryKey := queryKey q; q_data := q_data q; q_status := error;
         q_isInvalidated := true |}
  end.

Definition new_query (k : QueryKey) : Query :=
  {| queryKey := k; q_data := None; q_status := pending;
     q_isInvalidated := false |}.

Fixpoint settle_in (k : QueryKey) (r : Result json) (c : QueryCache)
  : QueryCache :=
  match c with
  | [] => [settle r (new_query k)]
  | q :: rest =>
      if String.eqb (hashKey (queryKey q)) (hashKey k)
      then settle r q :: rest
      else q :: settle_in k r rest
  end.

Definition invalidate (q : Query) : Query :=
  {| queryKey := queryKey q; q_data := q_data q; q_status := q_status q;
     q_isInvalidated := true |}.

(** [queryClient.invalidateQueries({ queryKey: k })]: every query whose
    key [k] partially matches is marked invalidated (and refetched by its
    observers). *)
Definition invalidateQueries (k : QueryKey) (c : QueryCache) : QueryCache :=
  List.map (fun q => if partialMatchKey (queryKey q) k then invalidate q else q) c.

(** [keepPreviousData]. *)
Definition keepPreviousData (previousData : option json) : option json :=
  previousData.

(** What an observer with [placeholderData] hands to the component:
    the query's own data, or the placeholder while the query is still
    pending without data. *)
Record ObserverResult := {
  data : option json;
  isError : bool
}.

Definition observe (placeholder : option json -> option json)
    (previous : option json) (q : Query) : ObserverResult :=
  match q_data q, q_status q with
  | None, pending =>
      {| data := placeholder previous; isError := false |}
  | d, st => {| data := d; isError := Status_eqb st error |}
  end.

End TanStack.
Import TanStack.

(* ================================================================== *)
(** ** The world the components run in *)
(* ================================================================== *)

Module Runtime.

(** Everything the modelled code reads or changes: the answers the
    network will give, the requests sent so far, the module-level [url]
    object of the table, the query cache of its [QueryClient], the
    component state of the table and the callbacks a form has invoked. *)
Record World := {
  server : list FetchOutcome;
  sent : list Request;
  url : URL;
  queries : QueryCache;
  validationErrors : dict string;
  creatingRow : bool;
  editingRow : bool;
  callbacks : list string
}.

Definition with_network (sv : list FetchOutcome) (lg : list Request)
    (w : World) : World :=
  {| server := sv; sent := lg; url := url w; queries := queries w;
     validationErrors := validationErrors w; creatingRow := creatingRow w;
     editingRow := editingRow w; callbacks := callbacks w |}.

Definition with_url (u : URL) (w : World) : World :=
  {| server := server w; sent := sent w; url := u; queries := queries w;
     validationErrors := validationErrors w; creatingRow := creatingRow w;
     editingRow := editingRow w; callbacks := callbacks w |}.

Definition with_queries (c : QueryCache) (w : World) : World :=
  {| server := server w; sent := sent w; url := url w; queries := c;
     validationErrors := validationErrors w; creatingRow := creatingRow w;
     editingRow := editingRow w; callbacks := callbacks w |}.

Definition with_validationErrors (e : dict string) (w : World) : World :=
  {| server := server w; sent := sent w; url := url w; queries := queries w;
     validationErrors := e; creatingRow := creatingRow w;
     editingRow := editingRow w; callbacks := callbacks w |}.

Definition with_creatingRow (b : bool) (w : World) : World :=
  {| server := server w; sent := sent w; url := url w; queries := queries w;
     validationErrors := validationErrors w; creatingRow := b;
     editingRow := editingRow w; callbacks := callbacks w |}.

Definition with_editingRow (b : bool) (w : World) : World :=
  {| server := server w; sent := sent w; url := url w; queries := queries w;
     validationErrors := validationErrors w; creatingRow := creatingRow w;
     editingRow := b; callbacks := callbacks w |}.

Definition with_callback (name : string) (w : World) : World :=
  {| server := server w; sent := sent w; url := url w; queries := queries w;
     validationErrors := validationErrors w; creatingRow := creatingRow w;
     editingRow := editingRow w; callbacks := callbacks w ++ [name] |}.

(** An [async] computation: a promise settled against the world. *)
Definition Async (A : Type) : Type := World -> Result A * World.

Definition ret {A} (a : A) : Async A := fun w => (Resolved a, w).

(** [throw new Error(msg)]. *)
Definition throw {A} (msg : string) : Async A := fun w => (Rejected msg, w).

(** [await], sequencing included: a rejection skips what follows. *)
Definition bind {A B} (m : Async A) (k : A -> Async B) : Async B :=
  fun w =>
    match m w with
    | (Resolved a, w') => k a w'
    | (Rejected msg, w') => (Rejected msg, w')
    end.

(** A synchronous state change. *)
Definition effect (f : World -> World) : Async unit :=
  fun w => (Resolved tt, f w).

Definition read {A} (f : World -> A) : Async A :=
  fun w => (Resolved (f w), w).

(** [fetch(request)]: the request is sent and the next answer of the
    server settles the promise; no answer at all is a network failure. *)
Definition fetch (rq : Request) : Async Response :=
  fun w =>
    match server w with
    | Responded r :: rest =>
        (Resolved r, with_network rest (sent w ++ [rq]) w)
    | NetworkError :: rest =>
        (Rejected "Failed to fetch", with_network rest (sent w ++ [rq]) w)
    | [] =>
        (Rejected "Failed to fetch", with_network [] (sent w ++ [rq]) w)
    end.

(** [response.json()]. *)
Definition Response_json (r : Response) : Async json :=
  match json_body r with
  | Some j => ret j
  | None => throw "Unexpected token in JSON"
  end.

(** The retries of a query: a rejected function is run again, [n]
    times at most, each run against the world the previous one left. *)
Fixpoint retry {A} (n : nat) (fn : Async A) : Async A :=
  fun w =>
    match fn w with
    | (Resolved a, w') => (Resolved a, w')
    | (Rejected msg, w') =>
        match n with
        | O => (Rejected msg, w')
        | S k => retry k fn w'
        end
    end.

(** [useQuery] fetching on a [QueryClient] with the default options:
    the query function runs, is retried three times while it rejects,
    and the settlement is recorded in the cache under the key. *)
Definition fetchQuery (k : QueryKey) (queryFn : Async json) : World -> World :=
  fun w =>
    let '(r, w') := retry 3 queryFn w in
    with_queries (settle_in k r (queries w')) w'.

(** [list.map(f)] for a callback that can throw: the callback runs on
    each element in turn, and not at all on an empty list. *)
Fixpoint map_throwing {A B} (f : A -> Async B) (l : list A) : Async (list B) :=
  match l with
  | [] => ret []
  | a :: r =>
      bind (f a) (fun b => bind (map_throwing f r) (fun bs => ret (b :: bs)))
  end.

(** [useMutation(...).mutateAsync]: the mutation function, then
    [onSuccess] when it resolved. *)
Definition mutateAsync {A} (mutationFn : Async A) (onSuccess : Async unit)
  : Async A :=
  bind mutationFn (fun a => bind onSuccess (fun _ => ret a)).

End Runtime.
Import Runtime.

Declare Scope async_scope.
Delimit Scope async_scope with async.
Notation "x <- m ;; k" := (bind m (fun x => k))
  (at level 61, m at next level, right associativity) : async_scope.
Notation "m ;;; k" := (bind m (fun _ => k))
  (at level 61, right associativity) : async_scope.

(* ================================================================== *)
(** ** [useGet]: the list fetch shared by the tables *)
(* ================================================================== *)

Module UseGet.

Record MRT_PaginationState := {
  pageIndex : float;
  pageSize : float
}.

Record MRT_ColumnFilter := {
  filter_id : string;
  filter_value : json
}.

Record MRT_ColumnSort := {
  sort_id : string;
  sort_desc : bool
}.

Definition MRT_ColumnFiltersState := list MRT_ColumnFilter.
Definition MRT_SortingState := list MRT_ColumnSort.

Definition json_of_filter (f : MRT_ColumnFilter) : json :=
  JObj [("id", JStr (filter_id f)); ("value", filter_value f)].

Definition json_of_sort (s : MRT_ColumnSort) : json :=
  JObj [("id", JStr (sort_id s)); ("desc", JBool (sort_desc s))].

Definition json_of_filters (fs : MRT_ColumnFiltersState) : json :=
  JArr (List.map json_of_filter fs).

Definition json_of_sorting (ss : MRT_SortingState) : json :=
  JArr (List.map json_of_sort ss).

Definition json_of_opt {A} (f : A -> json) (x : option A) : json :=
  match x with
  | Some a => f a
  | None => JNull
  end.

(** [x ?? []]. *)
Definition or_empty {A} (x : option (list A)) : list A :=
  match x with
  | Some l => l
  | None => []
  end.

Section WithArguments.

Variable pagination : MRT_PaginationState.
Variable columnFilters : option MRT_ColumnFiltersState.
Variable globalFilter : option string.
Variable sorting : option MRT_SortingState.

(** The [queryKey] of [useGet]. *)
Definition useGet_queryKey : QueryKey :=
  [ JStr "table-data";
    json_of_opt json_of_filters columnFilters;
    json_of_opt JStr globalFilter;
    JNum (pageIndex pagination);
    JNum (pageSize pagination);
    json_of_opt json_of_sorting sorting ].

(** [globalFilter && globalFilter.trim() !== ''] *)
Definition has_globalFilter : bool :=
  match globalFilter with
  | Some g => (JS.truthy_string (Some g) && negb (String.eqb (JS.trim g) ""))%bool
  | None => false
  end.

Definition globalFilter_text : string :=
  match globalFilter with
  | Some g => g
  | None => ""
  end.

(** The five [searchParams.set] statements of the query function,
    applied to the URL object it was given. *)
Definition set_fetch_params (fetchURL : URL) : URL :=
  let u1 :=
    searchParams_set "start"
      (JS.Number_toString (pageIndex pagination * pageSize pagination)%float)
      fetchURL in
  let u2 := searchParams_set "size" (JS.Number_toString (pageSize pagination)) u1 in
  let u3 :=
    searchParams_set "filters"
      (stringify (json_of_filters (or_empty columnFilters))) u2 in
  let u4 :=
    if has_globalFilter
    then searchParams_set "globalFilter" ("%" ++ globalFilter_text ++ "%") u3
    else u3 in
  searchParams_set "sorting" (stringify (json_of_sorting (or_empty sorting))) u4.

(** The [queryFn] of [useGet]: [fetchURL] is the caller's [url] object
    itself, so the parameters are written into the shared object. *)
Definition useGet_queryFn : Async json :=
  (fetchURL <- read url ;;
   effect (with_url (set_fetch_params fetchURL)) ;;;
   sentURL <- read url ;;
   response <- fetch {| req_method := GET; req_url := sentURL;
                        req_headers := []; req_body := None |} ;;
   json <- Response_json response ;;
   ret json)%async.

(** One run of the hook's fetch: [useQuery] with that key and function. *)
Definition useGet_fetch : World -> World :=
  fetchQuery useGet_queryKey useGet_queryFn.

(** What the hook returns to the table: the query observed with
    [placeholderData: keepPreviousData]. *)
Definition useGet_result (previous : option json) (w : World)
  : option ObserverResult :=
  match find_query (hashKey useGet_queryKey) (queries w) with
  | Some q => Some (observe keepPreviousData previous q)
  | None => None
  end.

End WithArguments.

(** The queries that [useGet] caches. *)
Definition is_list_query (q : Query) : Prop :=
  exists p cf gf s, queryKey q = useGet_queryKey p cf gf s.

End UseGet.
Import UseGet.

(* ================================================================== *)
(** ** The products table ([TProducts.tsx]) *)
(* ================================================================== *)

Module TProducts.

Definition API_URL : string := "http://localhost:5000/api/products".

(** [const url = new URL(API_URL, window.location.origin)] *)
Definition url : URL := new_URL API_URL.

(** [Partial<Product>]: the values of an edited row. *)
Record Product := {
  product_id : option float;
  product_name : option string;
  supplier : option string;
  item_number : option string
}.

Definition opt_field {A} (name : string) (f : A -> json) (x : option A)
  : list (string * json) :=
  match x with
  | Some a => [(name, f a)]
  | None => []
  end.

Definition json_of_Product (p : Product) : json :=
  JObj (opt_field "product_id" JNum (product_id p)
        ++ opt_field "product_name" JStr (product_name p)
        ++ opt_field "supplier" JStr (supplier p)
        ++ opt_field "item_number" JStr (item_number p)).

(** The [muiEditTextFieldProps] of an editable column. *)
Record EditTextFieldProps := {
  required : bool;
  error : bool;
  helperText : option string
}.

Record ColumnDef := {
  accessorKey : string;
  header : string;
  enableEditing : bool;
  muiEditTextFieldProps : option EditTextFieldProps
}.

Definition field_props (req : bool) (errors : dict string) (k : string)
  : option EditTextFieldProps :=
  Some {| required := req;
          error := JS.truthy_string (lookup k errors);
          helperText := lookup k errors |}.

(** The [columns] of the table for the current validation errors. *)
Definition columns (validationErrors : dict string) : list ColumnDef :=
  [ {| accessorKey := "product_id"; header := "Код товара";
       enableEditing := false; muiEditTextFieldProps := None |};
    {| accessorKey := "product_name"; header := "Наименование";
       enableEditing := true;
       muiEditTextFieldProps := field_props true validationErrors "product_name" |};
    {| accessorKey := "supplier"; header := "Поставщик";
       enableEditing := true;
       muiEditTextFieldProps := field_props false validationErrors "supplier" |};
    {| accessorKey := "item_number"; header := "Номенклатурный номер";
       enableEditing := true;
       muiEditTextFieldProps := field_props true validationErrors "item_number" |} ].

Definition validateProduct (product : Product) : dict string :=
  [ ("product_name",
      if negb (JS.truthy_string (product_name product))
      then "Наименование обязательно" else "");
    ("supplier",
      if negb (JS.truthy_string (supplier product))
      then "Поставщик обязателен" else "");
    ("item_number",
      if negb (JS.truthy_string (item_number product))
      then "Номенклатурный номер обязателен" else "") ].

(** [Object.values(errors).some((error) => error)] *)
Definition some_error (errors : dict string) : bool :=
  existsb (fun e => JS.truthy_string (Some e)) (values errors).

Definition json_headers : dict string :=
  [("Content-Type", "application/json")].

(** [`${x}`] for a [number | undefined]. *)
Definition template_number (x : option float) : string :=
  match x with
  | Some v => JS.Number_toString v
  | None => "undefined"
  end.

Definition onSuccess_invalidate (k : QueryKey) : Async unit :=
  effect (fun w => with_queries (invalidateQueries k (queries w)) w).

Definition check_ok (response : Response) (msg : string) : Async unit :=
  if negb (ok response) then throw msg else ret tt.

Definition createProduct (newProduct : Product) : Async json :=
  mutateAsync
    (response <- fetch {| req_method := POST; req_url := new_URL API_URL;
                          req_headers := json_headers;
                          req_body := Some (stringify (json_of_Product newProduct)) |} ;;
     check_ok response "Network response was not ok" ;;;
     Response_json response)%async
    (onSuccess_invalidate [JStr "products"]).

Definition updateProduct (updatedProduct : Product) : Async json :=
  mutateAsync
    (response <- fetch {| req_method := PUT;
                          req_url := new_URL (API_URL ++ "/"
                                       ++ template_number (product_id updatedProduct));
                          req_headers := json_headers;
                          req_body := Some (stringify (json_of_Product updatedProduct)) |} ;;
     check_ok response "Network response was not ok" ;;;
     Response_json response)%async
    (onSuccess_invalidate [JStr "products"]).

Definition deleteProduct (id : float) : Async json :=
  mutateAsync
    (response <- fetch {| req_method := DELETE;
                          req_url := new_URL (API_URL ++ "/" ++ JS.Number_toString id);
                          req_headers := []; req_body := None |} ;;
     check_ok response "Network response was not ok" ;;;
     Response_json response)%async
    (onSuccess_invalidate [JStr "products"]).

Definition handleCreateProduct (values : Product) : Async unit :=
  let newValidationErrors := validateProduct values in
  if some_error newValidationErrors then
    effect (with_validationErrors newValidationErrors)
  else
    (effect (with_validationErrors []) ;;;
     createProduct values ;;;
     effect (with_creatingRow false))%async.

Definition handleSaveProduct (values : Product) : Async unit :=
  let newValidationErrors := validateProduct values in
  if some_error newValidationErrors then
    effect (with_validationErrors newValidationErrors)
  else
    (effect (with_validationErrors []) ;;;
     updateProduct values ;;;
     effect (with_editingRow false))%async.

End TProducts.

(* ================================================================== *)
(** ** The products-income table ([TProductsIncome.tsx]) *)
(* ================================================================== *)

Module TProductsIncome.

Import TProducts.

Definition API_URL : string := "http://localhost:5000/api/products_income".

Definition url : URL := new_URL API_URL.

(** [Partial<ProductsIncome>] *)
Record ProductsIncome := {
  id : option float;
  income_note_id : option float;
  warehouse_id : option float;
  contractor : option string;
  total : option float;
  date : option string
}.

(** [if (c) errors.k = msg] *)
Definition set_if (c : bool) (k msg : string) (errors : dict string)
  : dict string :=
  if c then set k msg errors else errors.

Definition validateProductsIncome (productsIncome : ProductsIncome)
  : dict string :=
  let errors : dict string := [] in
  let errors :=
    set_if (negb (JS.truthy_opt_number (income_note_id productsIncome)))
      "income_note_id" "Номер накладной обязателен" errors in
  let errors :=
    set_if (negb (JS.truthy_opt_number (warehouse_id productsIncome)))
      "warehouse_id" "Склад обязателен" errors in
  let errors :=
    set_if (negb (JS.truthy_string (contractor productsIncome)))
      "contractor" "Контрагент обязателен" errors in
  let errors :=
    match total productsIncome with
    | None => set "total" "Сумма обязательна" errors
    | Some t =>
        if negb (JS.truthy_number t) then set "total" "Сумма обязательна" errors
        else if (JS.isNaN t || negb (JS.Number_isInteger (t * 100)%float))%bool
             then set "total" "" errors
             else errors
    end in
  let errors :=
    set_if (negb (JS.truthy_string (date productsIncome)))
      "date" "Дата обязательна" errors in
  errors.

Section WithDateFns.

(** [format(parse(d, 'yyyy-MM-dd', new Date()), 'yyyy-MM-dd')] of
    [date-fns]; [None] when it throws on an invalid date. *)
Variable reformat_date : string -> option string.

(** The request body: the row with its [date] rewritten, [null] for a
    missing one. *)
Definition body_of (p : ProductsIncome) : Async string :=
  let rest :=
    (opt_field "id" JNum (id p)
     ++ opt_field "income_note_id" JNum (income_note_id p)
     ++ opt_field "warehouse_id" JNum (warehouse_id p)
     ++ opt_field "contractor" JStr (contractor p)
     ++ opt_field "total" JNum (total p))%list in
  if JS.truthy_string (date p) then
    match date p with
    | Some d =>
        match reformat_date d with
        | Some d' => ret (stringify (JObj (rest ++ [("date", JStr d')])))
        | None => throw "Invalid time value"
        end
    | None => ret (stringify (JObj (rest ++ [("date", JNull)])))
    end
  else ret (stringify (JObj (rest ++ [("date", JNull)]))).

Definition createProductsIncome (newProductsIncomeInfo : ProductsIncome)
  : Async json :=
  mutateAsync
    (body <- body_of newProductsIncomeInfo ;;
     response <- fetch {| req_method := POST; req_url := new_URL API_URL;
                          req_headers := json_headers;
                          req_body := Some body |} ;;
     check_ok response "Error creating ProductsIncome" ;;;
     Response_json response)%async
    (onSuccess_invalidate [JStr "productsIncome"]).

Definition updateProductsIncome (updatedProductsIncome : ProductsIncome)
  : Async json :=
  mutateAsync
    (body <- body_of updatedProductsIncome ;;
     response <- fetch {| req_method := PUT;
                          req_url := new_URL (API_URL ++ "/"
                                       ++ template_number (id updatedProductsIncome));
                          req_headers := json_headers;
                          req_body := Some body |} ;;
     check_ok response "Error updating ProductsIncome" ;;;
     Response_json response)%async
    (onSuccess_invalidate [JStr "productsIncome"]).

Definition handleCreateProductsIncome (values : ProductsIncome) : Async unit :=
  let newValidationErrors := validateProductsIncome values in
  if some_error newValidationErrors then
    effect (with_validationErrors newValidationErrors)
  else
    (effect (with_validationErrors []) ;;;
     createProductsIncome values ;;;
     effect (with_creatingRow false))%async.

Definition handleSaveProductsIncome (values : ProductsIncome) : Async unit :=
  let newValidationErrors := validateProductsIncome values in
  if some_error newValidationErrors then
    effect (with_validationErrors newValidationErrors)
  else
    (effect (with_validationErrors []) ;;;
     updateProductsIncome values ;;;
     effect (with_editingRow false))%async.

End WithDateFns.

End TProductsIncome.

(* ================================================================== *)
(** ** The compound note forms *)
(* ================================================================== *)

Module NoteForms.

Import TProducts.

Definition API_URL : string := "http://localhost:5000/api".

(** [Omit<ProductsOutcome, 'id'>]; the income header has the same
    fields with [income_note_id] for the note number. *)
Record NoteHeader := {
  note_id : float;
  warehouse_id : float;
  contractor : string;
  total : float;
  date : string
}.

Definition json_of_header (id_name : string) (h : NoteHeader) : json :=
  JObj [ (id_name, JNum (note_id h));
         ("warehouse_id", JNum (warehouse_id h));
         ("contractor", JStr (contractor h));
         ("total", JNum (total h));
         ("date", JStr (date h)) ].

(** [Omit<OutcomeNote, 'id'>] *)
Record OutcomeNote := {
  item_number : string;
  price : float;
  quantity : float;
  line_total : float;
  outcome_note_id : float
}.

Definition json_of_OutcomeNote (n : OutcomeNote) : json :=
  JObj [ ("item_number", JStr (item_number n));
         ("price", JNum (price n));
         ("quantity", JNum (quantity n));
         ("total", JNum (line_total n));
         ("outcome_note_id", JNum (outcome_note_id n)) ].

(** [{ ...note, outcome_note_id: v }] *)
Definition with_outcome_note_id (v : float) (n : OutcomeNote) : OutcomeNote :=
  {| item_number := item_number n; price := price n;
     quantity := quantity n; line_total := line_total n;
     outcome_note_id := v |}.

(** The [mutationFn] of [createProductsOutcomeMutation]
    ([products-outcome-form.tsx]). *)
Definition createProductsOutcome_mutationFn
    (productsOutcome : NoteHeader) (outcomeNotes : list OutcomeNote)
  : Async json :=
  (response1 <- fetch {| req_method := POST;
                         req_url := new_URL (API_URL ++ "/products_outcome");
                         req_headers := json_headers;
                         req_body := Some (stringify
                                       (json_of_header "outcome_note_id" productsOutcome)) |} ;;
   check_ok response1 "Failed to create products outcome" ;;;
   createdProductsOutcome <- Response_json response1 ;;
   let outcomeNotesWithId :=
     List.map (with_outcome_note_id (note_id productsOutcome)) outcomeNotes in
   response2 <- fetch {| req_method := POST;
                         req_url := new_URL (API_URL ++ "/outcome_notes");
                         req_headers := json_headers;
                         req_body := Some (stringify
                                       (JArr (List.map json_of_OutcomeNote
                                                outcomeNotesWithId))) |} ;;
   check_ok response2 "Failed to create outcome notes" ;;;
   ret createdProductsOutcome)%async.

(** [onSuccess] of the mutation: invalidate, then the two callbacks of
    the form's owner. *)
Definition createProductsOutcome_onSuccess : Async unit :=
  (onSuccess_invalidate [JStr "productsOutcome"] ;;;
   effect (with_callback "onSuccess") ;;;
   effect (with_callback "onClose"))%async.

(** [handleSubmit]: [mutate] settles in the background; the handler
    itself never rejects. *)
Definition handleSubmit_outcome (productsOutcome : NoteHeader)
    (outcomeNotes : list OutcomeNote) : World -> World :=
  fun w =>
    snd (mutateAsync
           (createProductsOutcome_mutationFn productsOutcome outcomeNotes)
           createProductsOutcome_onSuccess w).

(** [Omit<IncomeNote, 'id'>]; after the rewrite its [income_note_id]
    is whatever the created header carried, [None] for [undefined]. *)
Record IncomeNote := {
  in_product_id : float;
  in_item_number : string;
  in_price : float;
  in_quantity : float;
  in_total : float;
  income_note_id : option json
}.

Definition json_of_IncomeNote (n : IncomeNote) : json :=
  JObj ([ ("product_id", JNum (in_product_id n));
          ("item_number", JStr (in_item_number n));
          ("price", JNum (in_price n));
          ("quantity", JNum (in_quantity n));
          ("total", JNum (in_total n)) ]
        ++ opt_field "income_note_id" (fun j => j) (income_note_id n)).

Definition with_income_note_id (v : option json) (n : IncomeNote) : IncomeNote :=
  {| in_product_id := in_product_id n; in_item_number := in_item_number n;
     in_price := in_price n; in_quantity := in_quantity n;
     in_total := in_total n; income_note_id := v |}.

(** [value.name] in an expression: reading a property of [null]
    throws, of anything else it gives the property or [undefined]. *)
Definition property_of (value : json) (name : string) : Async (option json) :=
  match value with
  | JNull => throw "Cannot read properties of null"
  | _ => ret (getProp value name)
  end.

(** The [mutationFn] of [createProductsIncomeMutation]
    ([products-income-form.tsx]), the sibling of the outcome form. *)
Definition createProductsIncome_mutationFn
    (productsIncome : NoteHeader) (incomeNotes : list IncomeNote)
  : Async json :=
  (response1 <- fetch {| req_method := POST;
                         req_url := new_URL (API_URL ++ "/products_income");
                         req_headers := json_headers;
                         req_body := Some (stringify
                                       (json_of_header "income_note_id" productsIncome)) |} ;;
   check_ok response1 "Failed to create products income" ;;;
   createdProductsIncome <- Response_json response1 ;;
   incomeNotesWithId <-
     map_throwing
       (fun note =>
          created_income_note_id <-
            property_of createdProductsIncome "income_note_id" ;;
          ret (with_income_note_id created_income_note_id note))
       incomeNotes ;;
   response2 <- fetch {| req_method := POST;
                         req_url := new_URL (API_URL ++ "/income_notes");
                         req_headers := json_headers;
                         req_body := Some (stringify
                                       (JArr (List.map json_of_IncomeNote
                                                incomeNotesWithId))) |} ;;
   check_ok response2 "Failed to create income notes" ;;;
   ret createdProductsIncome)%async.

(** The two requests of the outcome form as the server receives
    them: the header, and the lines numbered with the note number of the
    form. *)
Definition outcome_header_request (productsOutcome : NoteHeader) : Request :=
  {| req_method := POST;
     req_url := new_URL "http://localhost:5000/api/products_outcome";
     req_headers := json_headers;
     req_body := Some (stringify (json_of_header "outcome_note_id" productsOutcome)) |}.

Definition outcome_lines_request (productsOutcome : NoteHeader)
    (outcomeNotes : list OutcomeNote) : Request :=
  {| req_method := POST;
     req_url := new_URL "http://localhost:5000/api/outcome_notes";
     req_headers := json_headers;
     req_body :=
       Some (stringify
               (JArr (List.map json_of_OutcomeNote
                        (List.map (with_outcome_note_id (note_id productsOutcome))
                                  outcomeNotes)))) |}.

End NoteForms.

(* ================================================================== *)
(** ** The report component ([integrated-report.tsx]) *)
(* ================================================================== *)

Module IntegratedReport.

Import TProducts.

Inductive ReportType := inventory | revenue | cost.

Inductive GroupBy := group_warehouse_id | group_item_number.

Inductive SortBy :=
  | sort_warehouse_id
  | sort_item_number
  | sort_product_name
  | sort_total_remaining
  | sort_total.

Record ReportParams := {
  warehouseId : option float;
  startDate : string;
  endDate : string;
  groupBy : GroupBy;
  sortBy : SortBy
}.

(** A row of a report; [total_remaining] and [total] are optional
    keys, [None] when the key is absent. *)
Record ReportData := {
  warehouse_id : float;
  item_number : string;
  product_name : string;
  total_remaining : option float;
  total : option float
}.

(** The component state: the three [useState] cells. *)
Record State := {
  reportType : ReportType;
  reportParams : ReportParams;
  reportData : list ReportData
}.

Definition ReportType_eqb (a b : ReportType) : bool :=
  match a, b with
  | inventory, inventory | revenue, revenue | cost, cost => true
  | _, _ => false
  end.

Definition SortBy_eqb (a b : SortBy) : bool :=
  match a, b with
  | sort_warehouse_id, sort_warehouse_id
  | sort_item_number, sort_item_number
  | sort_product_name, sort_product_name
  | sort_total_remaining, sort_total_remaining
  | sort_total, sort_total => true
  | _, _ => false
  end.

Definition set_sortBy (v : SortBy) (prev : ReportParams) : ReportParams :=
  {| warehouseId := warehouseId prev; startDate := startDate prev;
     endDate := endDate prev; groupBy := groupBy prev; sortBy := v |}.

Definition handleReportTypeChange (newReportType : ReportType) (st : State)
  : State :=
  let params := reportParams st in
  let params' :=
    if (ReportType_eqb newReportType inventory
        && SortBy_eqb (sortBy params) sort_total)%bool
    then set_sortBy sort_total_remaining params
    else if (negb (ReportType_eqb newReportType inventory)
             && SortBy_eqb (sortBy params) sort_total_remaining)%bool
    then set_sortBy sort_total params
    else params in
  {| reportType := newReportType;
     reportParams := params';
     reportData := [] |}.

(** The [MenuItem]s of the sort-by [Select] for a report kind. *)
Definition sortBy_options (t : ReportType) : list SortBy :=
  [sort_warehouse_id; sort_item_number; sort_product_name]
  ++ (if ReportType_eqb t inventory then [sort_total_remaining] else [])
  ++ (if negb (ReportType_eqb t inventory) then [sort_total] else []).

(** [handleParamChange] for the field [sortBy]. *)
Definition handleSortByChange (v : SortBy) (st : State) : State :=
  {| reportType := reportType st;
     reportParams := set_sortBy v (reportParams st);
     reportData := reportData st |}.

(** [onSuccess] of the report mutation: [setReportData(data)]. *)
Definition setReportData (rows : list ReportData) (st : State) : State :=
  {| reportType := reportType st;
     reportParams := reportParams st;
     reportData := rows |}.

(** What the user can do with the form. *)
Inductive Event :=
  | SelectReportType (t : ReportType)
  | SelectSortBy (v : SortBy)
  | ReportArrived (rows : list ReportData).

Inductive step : State -> Event -> State -> Prop :=
  | step_type st t :
      step st (SelectReportType t) (handleReportTypeChange t st)
  | step_sort st v :
      In v (sortBy_options (reportType st)) ->
      step st (SelectSortBy v) (handleSortByChange v st)
  | step_data st rows :
      step st (ReportArrived rows) (setReportData rows st).

Inductive reachable (init : State) : State -> Prop :=
  | reach_init : reachable init init
  | reach_step st ev st' :
      reachable init st -> step st ev st' -> reachable init st'.

(** The initial state of the component, for the day [today]. *)
Definition initial (today : string) : State :=
  {| reportType := inventory;
     reportParams := {| warehouseId := None; startDate := today;
                        endDate := today; groupBy := group_warehouse_id;
                        sortBy := sort_item_number |};
     reportData := [] |}.

(** [item.total || 0] *)
Definition total_or_zero (item : ReportData) : float :=
  match total item with
  | Some t => if JS.truthy_number t then t else 0%float
  | None => 0%float
  end.

(** [reportData.reduce((sum, item) => sum + Number(item.total || 0), 0)] *)
Definition totalAmount (reportData : list ReportData) : float :=
  List.fold_left (fun sum item => (sum + total_or_zero item)%float)
                 reportData 0%float.

(** The amount as rendered: [{totalAmount.toFixed(2)}₽]. *)
Definition grand_total_text (reportData : list ReportData) : string :=
  JS.toFixed2 (totalAmount reportData) ++ "₽".

(** The grand-total line under the table, when it is rendered.
    [isLoading] and [isError] are the flags of the warehouses query: the
    component returns its loading or its error text alone while one of
    them is up, and the report with it otherwise. *)
Definition grand_total_line (isLoading isError : bool) (st : State)
  : option string :=
  if isLoading then None
  else if isError then None
  else if Nat.ltb 0 (List.length (reportData st)) then
    if negb (ReportType_eqb (reportType st) inventory)
    then Some ("Итого: " ++ grand_total_text (reportData st))
    else None
  else None.

End IntegratedReport.

(* ================================================================== *)
(** ** What a table makes of the hook's result *)
(* ================================================================== *)

Module TableView.

(** The arguments of one render of [useGet]: the table state. *)
Record TableState := {
  pagination : MRT_PaginationState;
  columnFilters : option MRT_ColumnFiltersState;
  globalFilter : option string;
  sorting : option MRT_SortingState
}.

(** The fetch of one render. *)
Definition fetch_with (t : TableState) : World -> World :=
  useGet_fetch (pagination t) (columnFilters t) (globalFilter t) (sorting t).

(** The fetches of successive renders, first to last. *)
Definition fetch_all (renders : list TableState) (w : World) : World :=
  List.fold_left (fun w' t => fetch_with t w') renders w.

(** The [globalFilter] parameter a run of renders leaves in a URL object
    that held [before]: the filter of the last render that had one. *)
Definition last_globalFilter (renders : list TableState)
    (before : option string) : option string :=
  List.fold_left
    (fun acc t =>
       if has_globalFilter (globalFilter t)
       then Some ("%" ++ globalFilter_text (globalFilter t) ++ "%")
       else acc)
    renders before.

(** How often a name occurs among the parameters. *)
Definition occurrences (k : string) (d : dict string) : nat :=
  List.length (List.filter (fun kv => String.eqb (fst kv) k) d).

(** An answer that rejects the query function: the network fails, or
    the body is not JSON. *)
Definition answer_fails (o : FetchOutcome) : bool :=
  match o with
  | NetworkError => true
  | Responded r =>
      match json_body r with
      | Some _ => false
      | None => true
      end
  end.

(** [data: { data = [], meta } = {}] with
    [rowCount: meta?.totalRowCount ?? 0]: the rows handed to the grid
    and its row count. Destructuring [null] throws. *)
Definition table_view (queryData : option json) : Result (json * json) :=
  match queryData with
  | Some JNull => Rejected "Cannot destructure property 'data' of null"
  | _ =>
      let page := match queryData with Some j => j | None => JObj [] end in
      let rows := match getProp page "data" with
                  | Some r => r
                  | None => JArr []
                  end in
      let rowCount :=
        match getProp page "meta" with
        | Some meta =>
            match getProp meta "totalRowCount" with
            | Some JNull | None => JNum 0
            | Some n => n
            end
        | None => JNum 0
        end in
      Resolved (rows, rowCount)
  end.

(** What a table shows for the current render: the grid's rows and row
    count, and whether the alert banner is up ([showAlertBanner:
    isError]). Before any fetch the hook has no data and no error. *)
Definition table_shows (t : TableState) (previous : option json) (w : World)
  : Result (json * json) * bool :=
  match useGet_result (pagination t) (columnFilters t) (globalFilter t)
          (sorting t) previous w with
  | Some r => (table_view (data r), isError r)
  | None => (table_view None, false)
  end.

End TableView.

(* ================================================================== *)
(** ** Row deletion and lookup cells *)
(* ================================================================== *)

Module RowActions.

(** The request of [useCreateProduct] for a row. *)
Definition create_request (values : TProducts.Product) : Request :=
  {| req_method := POST; req_url := new_URL TProducts.API_URL;
     req_headers := TProducts.json_headers;
     req_body := Some (stringify (TProducts.json_of_Product values)) |}.

(** [openDeleteConfirmModal] of the products table: [confirmed] is the
    answer of [window.confirm]; the mutation is started and not awaited. *)
Definition openDeleteConfirmModal (confirmed : bool) (product_id : float)
  : World -> World :=
  fun w => if confirmed then snd (TProducts.deleteProduct product_id w) else w.

Record Warehouse := {
  warehouse_id : float;
  warehouse_name : string
}.

(** The [Cell] of the warehouse column of the income and outcome
    tables: [warehouses.find(w => w.warehouse_id === v)?.warehouse_name
    ?? 'Unknown']. *)
Definition warehouse_cell (warehouses : list Warehouse) (v : float) : string :=
  match List.find (fun w => PrimFloat.eqb (warehouse_id w) v) warehouses with
  | Some w => warehouse_name w
  | None => "Unknown"
  end.

(** [editSelectOptions]: one option per warehouse, value and label. *)
Definition warehouse_options (warehouses : list Warehouse)
  : list (float * string) :=
  List.map (fun w => (warehouse_id w, warehouse_name w)) warehouses.

End RowActions.

(* ================================================================== *)
(** ** Validation of employees and positions *)
(* ================================================================== *)

Module Validation.

(** [/^\d{n}$/.test(s)]: exactly [n] characters, all of them digits. *)
Definition test_digits (n : nat) (s : string) : bool :=
  (Nat.eqb (String.length s) n
   && forallb JS.is_digit (list_ascii_of_string s))%bool.

(** [Partial<Employee>] ([TEmployees.tsx]). *)
Record Employee := {
  id : option float;
  inn : option string;
  warehouse_id : option float;
  position_id : option float;
  employee_name : option string;
  phone_number : option string
}.

(** [!employee.inn || !/^\d{12}$/.test(employee.inn)] *)
Definition inn_refused (e : Employee) : bool :=
  match inn e with
  | Some s => (negb (JS.truthy_string (Some s)) || negb (test_digits 12 s))%bool
  | None => true
  end.

(** [employee.phone_number && !/^\d{11}$/.test(employee.phone_number)] *)
Definition phone_refused (e : Employee) : bool :=
  match phone_number e with
  | Some s => (JS.truthy_string (Some s) && negb (test_digits 11 s))%bool
  | None => false
  end.

Definition validateEmployee (employee : Employee) : dict string :=
  let errors : dict string := [] in
  let errors :=
    TProductsIncome.set_if (inn_refused employee)
      "inn" "ИНН должно быть 12 цифр" errors in
  let errors :=
    TProductsIncome.set_if (negb (JS.truthy_opt_number (warehouse_id employee)))
      "warehouse_id" "Склад обязателен" errors in
  let errors :=
    TProductsIncome.set_if (negb (JS.truthy_opt_number (position_id employee)))
      "position_id" "Должность обязательна" errors in
  let errors :=
    TProductsIncome.set_if (negb (JS.truthy_string (employee_name employee)))
      "employee_name" "ФИО обязательно" errors in
  let errors :=
    TProductsIncome.set_if (phone_refused employee)
      "phone_number" "Номер телефона должен быть 11 цифр" errors in
  errors.

(** [Partial<Position>] ([TPositions.tsx]); a [null] salary is [None]. *)
Record Position := {
  pos_id : option float;
  position_name : option string;
  salary : option float
}.

Definition validatePosition (position : Position) : dict string :=
  let errors : dict string := [] in
  let errors :=
    TProductsIncome.set_if (negb (JS.truthy_string (position_name position)))
      "position_name" "Наименование обязательно" errors in
  let errors :=
    match salary position with
    | Some v =>
        if (JS.isNaN v || negb (JS.Number_isInteger (v * 100)%float))%bool
        then set "salary" "" errors
        else errors
    | None => errors
    end in
  errors.

End Validation.

(* ================================================================== *)
(** ** The state of the outcome form ([products-outcome-form.tsx]) *)
(* ================================================================== *)

Module OutcomeFormState.

Import NoteForms.

(** The two [useState] cells of the form. *)
Record Form := {
  productsOutcome : NoteHeader;
  outcomeNotes : list OutcomeNote
}.

(** [array.map((x, i) => f(x, i))] from index [i]. *)
Fixpoint map_index {A B} (f : A -> nat -> B) (i : nat) (l : list A) : list B :=
  match l with
  | [] => []
  | x :: r => f x i :: map_index f (S i) r
  end.

(** [array.filter((x, i) => keep(i))] from index [i]. *)
Fixpoint filter_index {A} (keep : nat -> bool) (i : nat) (l : list A) : list A :=
  match l with
  | [] => []
  | x :: r => if keep i then x :: filter_index keep (S i) r
              else filter_index keep (S i) r
  end.

(** The names of the inputs of a line. *)
Inductive LineField := field_item_number | field_price | field_quantity | field_total.

(** The names of the text inputs of the header. *)
Inductive HeaderField :=
  | header_outcome_note_id
  | header_warehouse_id
  | header_contractor
  | header_total.

(** The initial state, for the day [today]. *)
Definition initial (today : string) : Form :=
  {| productsOutcome := {| note_id := 0; warehouse_id := 0; contractor := "";
                           total := 0; date := today |};
     outcomeNotes := [] |}.

Section WithConversions.

(** [Number(s)] and [parseFloat(s)] on the text of an input. *)
Variable Number : string -> float.
Variable parseFloat : string -> float.

Definition handleProductsOutcomeChange (name : HeaderField) (value : string)
    (st : Form) : Form :=
  let prev := productsOutcome st in
  {| productsOutcome :=
       match name with
       | header_outcome_note_id =>
           {| note_id := Number value; warehouse_id := warehouse_id prev;
              contractor := contractor prev; total := total prev;
              date := date prev |}
       | header_warehouse_id =>
           {| note_id := note_id prev; warehouse_id := Number value;
              contractor := contractor prev; total := total prev;
              date := date prev |}
       | header_contractor =>
           {| note_id := note_id prev; warehouse_id := warehouse_id prev;
              contractor := value; total := total prev; date := date prev |}
       | header_total =>
           {| note_id := note_id prev; warehouse_id := warehouse_id prev;
              contractor := contractor prev; total := parseFloat value;
              date := date prev |}
       end;
     outcomeNotes := outcomeNotes st |}.

(** [{ ...note, [name]: ... }] *)
Definition change_line (name : LineField) (value : string) (note : OutcomeNote)
  : OutcomeNote :=
  match name with
  | field_item_number =>
      {| item_number := value; price := price note; quantity := quantity note;
         line_total := line_total note; outcome_note_id := outcome_note_id note |}
  | field_price =>
      {| item_number := item_number note; price := parseFloat value;
         quantity := quantity note; line_total := line_total note;
         outcome_note_id := outcome_note_id note |}
  | field_quantity =>
      {| item_number := item_number note; price := price note;
         quantity := parseFloat value; line_total := line_total note;
         outcome_note_id := outcome_note_id note |}
  | field_total =>
      {| item_number := item_number note; price := price note;
         quantity := quantity note; line_total := parseFloat value;
         outcome_note_id := outcome_note_id note |}
  end.

Definition handleOutcomeNoteChange (index : nat) (name : LineField)
    (value : string) (st : Form) : Form :=
  {| productsOutcome := productsOutcome st;
     outcomeNotes :=
       map_index (fun note i => if Nat.eqb i index
                                then change_line name value note else note)
                 0 (outcomeNotes st) |}.

End WithConversions.

Definition addOutcomeNote (st : Form) : Form :=
  {| productsOutcome := productsOutcome st;
     outcomeNotes :=
       outcomeNotes st
       ++ [ {| item_number := ""; price := 0; quantity := 0; line_total := 0;
               outcome_note_id := note_id (productsOutcome st) |} ] |}.

Definition removeOutcomeNote (index : nat) (st : Form) : Form :=
  {| productsOutcome := productsOutcome st;
     outcomeNotes :=
       filter_index (fun i => negb (Nat.eqb i index)) 0 (outcomeNotes st) |}.

Definition handleSubmit (st : Form) : World -> World :=
  handleSubmit_outcome (productsOutcome st) (outcomeNotes st).

(** The next two answers of the server create the header and the
    lines: both have a 2xx status and the first has a JSON body. *)
Definition both_created (answers : list FetchOutcome) : bool :=
  match answers with
  | Responded r1 :: Responded r2 :: _ =>
      (ok r1 && ok r2
       && match json_body r1 with Some _ => true | None => false end)%bool
  | _ => false
  end.

End OutcomeFormState.

(* ================================================================== *)
(** ** Generating a report ([integrated-report.tsx]) *)
(* ================================================================== *)

Module ReportRequests.

Import IntegratedReport.

Definition API_URL : string := "http://localhost:5000/api".

Definition ReportType_name (t : ReportType) : string :=
  match t with
  | inventory => "inventory"
  | revenue => "revenue"
  | cost => "cost"
  end.

Definition GroupBy_name (g : GroupBy) : string :=
  match g with
  | group_warehouse_id => "warehouse_id"
  | group_item_number => "item_number"
  end.

Definition SortBy_name (s : SortBy) : string :=
  match s with
  | sort_warehouse_id => "warehouse_id"
  | sort_item_number => "item_number"
  | sort_product_name => "product_name"
  | sort_total_remaining => "total_remaining"
  | sort_total => "total"
  end.

Definition json_of_ReportParams (p : ReportParams) : json :=
  JObj [ ("warehouseId", match warehouseId p with
                         | Some n => JNum n
                         | None => JNull
                         end);
         ("startDate", JStr (startDate p));
         ("endDate", JStr (endDate p));
         ("groupBy", JStr (GroupBy_name (groupBy p)));
         ("sortBy", JStr (SortBy_name (sortBy p))) ].

Definition report_request (t : ReportType) (p : ReportParams) : Request :=
  {| req_method := POST;
     req_url := new_URL (API_URL ++ "/" ++ ReportType_name t ++ "-report");
     req_headers := TProducts.json_headers;
     req_body := Some (stringify (json_of_ReportParams p)) |}.

(** The [mutationFn] of [generateReportMutation]. *)
Definition generateReport_mutationFn (t : ReportType) (p : ReportParams)
  : Async json :=
  (response <- fetch (report_request t p) ;;
   TProducts.check_ok response
     ("Failed to generate " ++ ReportType_name t ++ " report") ;;;
   Response_json response)%async.

Section WithRows.

(** The answer read as [ReportData[]], the type the mutation declares. *)
Variable as_rows : json -> list ReportData.

(** [handleGenerateReport], settled: [onSuccess] stores the rows. *)
Definition handleGenerateReport (st : State) (w : World) : State * World :=
  match generateReport_mutationFn (reportType st) (reportParams st) w with
  | (Resolved d, w') => (setReportData (as_rows d) st, w')
  | (Rejected _, w') => (st, w')
  end.

End WithRows.

(** What [cell.getValue()] can give for a numeric column. *)
Inductive CellValue :=
  | value_undefined
  | value_null
  | value_number (t : float).

(** [Number(v)]: [NaN] for [undefined], [0] for [null]. *)
Definition Number_of (v : CellValue) : float :=
  match v with
  | value_undefined => PrimFloat.nan
  | value_null => 0%float
  | value_number t => t
  end.

(** The [Cell] of the column [total]:
    [`${Number(cell.getValue()).toFixed(2)}₽`]. *)
Definition total_cell_of (v : CellValue) : string :=
  JS.toFixed2 (Number_of v) ++ "₽".

(** The value of the column [total] for a row: its [total], or
    [undefined] when the row has no such key. *)
Definition total_value (item : ReportData) : CellValue :=
  match total item with
  | Some t => value_number t
  | None => value_undefined
  end.

Definition total_cell (item : ReportData) : string :=
  total_cell_of (total_value item).

(** The [columns] of the report table, key and header. *)
Definition columns (t : ReportType) : list (string * string) :=
  [ ("warehouse_id", "Склад");
    ("item_number", "Номенклатурный номер");
    ("product_name", "Наименование товара") ]
  ++ (if ReportType_eqb t inventory
      then [("total_remaining", "Остаток")]
      else [("total", "Сумма")]).

End ReportRequests.

(* ================================================================== *)
(** ** The application shell ([App.tsx], [Dropdown.tsx]) *)
(* ================================================================== *)

Module App.

(** The [options] of the dropdown, value and label. *)
Definition options : list (string * string) :=
  [ ("option1", "Склады");
    ("option2", "Сотрудники");
    ("option3", "Должности");
    ("option4", "Товары");
    ("option5", "Приход товаров");
    ("option6", "Накладные прихода");
    ("option7", "Расход товара");
    ("option8", "Накладная расхода");
    ("option9", "Отчеты") ].

(** The components [renderComponent] can return. *)
Inductive Screen :=
  | Screen_WarehousesTable
  | Screen_TEmployees
  | Screen_TPositions
  | Screen_TProducts
  | Screen_TProductsIncome
  | Screen_TIncomeNotes
  | Screen_TProductsOutcome
  | Screen_TOutcomeNotes
  | Screen_IntegratedReportComponent.

Definition renderComponent (selectedOption : string) : Screen :=
  if String.eqb selectedOption "option1" then Screen_WarehousesTable
  else if String.eqb selectedOption "option2" then Screen_TEmployees
  else if String.eqb selectedOption "option3" then Screen_TPositions
  else if String.eqb selectedOption "option4" then Screen_TProducts
  else if String.eqb selectedOption "option5" then Screen_TProductsIncome
  else if String.eqb selectedOption "option6" then Screen_TIncomeNotes
  else if String.eqb selectedOption "option7" then Screen_TProductsOutcome
  else if String.eqb selectedOption "option8" then Screen_TOutcomeNotes
  else if String.eqb selectedOption "option9" then Screen_IntegratedReportComponent
  else Screen_WarehousesTable.

(** The component state and the browser's [localStorage]. *)
Record AppState := {
  selectedOption : string;
  localStorage : dict string
}.

(** [localStorage.getItem('selectedOption') || 'option1'] *)
Definition stored_option (storage : dict string) : string :=
  match lookup "selectedOption" storage with
  | Some s => if JS.truthy_string (Some s) then s else "option1"
  | None => "option1"
  end.

(** The first render and its effect: the state is read from the
    storage and written back to it. *)
Definition mount (storage : dict string) : AppState :=
  let selected := stored_option storage in
  {| selectedOption := selected;
     localStorage := set "selectedOption" selected storage |}.

(** [handleSelect] and the effect of the render it causes. *)
Definition handleSelect (option : string) (st : AppState) : AppState :=
  {| selectedOption := option;
     localStorage := set "selectedOption" option (localStorage st) |}.

(** [handleChange] of the dropdown: the value of the chosen option goes
    to [onSelect]. *)
Definition handleChange (value : string) (st : AppState) : AppState :=
  handleSelect value st.

End App.

(* ================================================================== *)
(** ** The income-note mutations ([TIncomeNotes.tsx]) *)
(* ================================================================== *)

Module IncomeNotes.

Definition API_URL : string := "http://localhost:5000/api/income_notes".

(** Truthiness of a parsed JSON value. *)
Definition truthy (j : json) : bool :=
  match j with
  | JNull => false
  | JBool b => b
  | JNum x => JS.truthy_number x
  | JStr s => JS.truthy_string (Some s)
  | JArr _ | JObj _ => true
  end.

(** [String(value)], as [new Error(value)] converts its message. *)
Fixpoint to_String (j : json) : string :=
  match j with
  | JNull => "null"
  | JBool true => "true"
  | JBool false => "false"
  | JNum x => JS.Number_toString x
  | JStr s => s
  | JArr items =>
      JS.join ","
        (List.map (fun x => match x with
                            | JNull => ""
                            | _ => to_String x
                            end) items)
  | JObj _ => "[object Object]"
  end.

(** [throw new Error(errorData.message || generic)]; reading a
    property of [null] throws on its own. *)
Definition throw_server_error {A} (errorData : json) (generic : string)
  : Async A :=
  match errorData with
  | JNull => throw "Cannot read properties of null (reading 'message')"
  | _ =>
      match getProp errorData "message" with
      | Some m => if truthy m then throw (to_String m) else throw generic
      | None => throw generic
      end
  end.

(** The [mutationFn] of [createIncomeNote]: the note is posted as a
    one-element array. *)
Definition createIncomeNote_mutationFn (newIncomeNote : json) : Async json :=
  (response <- fetch {| req_method := POST; req_url := new_URL API_URL;
                        req_headers := TProducts.json_headers;
                        req_body := Some (stringify (JArr [newIncomeNote])) |} ;;
   if negb (ok response) then
     errorData <- Response_json response ;;
     throw_server_error errorData "Failed to create income note"
   else
     data <- Response_json response ;;
     ret data)%async.

(** The [error] state after the mutation settled: [onSuccess] clears
    it, [onError] sets it. *)
Definition error_banner (r : Result json) : option string :=
  match r with
  | Resolved _ => None
  | Rejected msg => Some ("Failed to create income note: " ++ msg)
  end.

End IncomeNotes.

(* ================================================================== *)
(** ** Concrete inputs *)
(* ================================================================== *)

Module Scenario.

(** The world of a freshly mounted products table facing a server
    that will give the answers [answers]. *)
Definition products_world (answers : list FetchOutcome) : World :=
  {| server := answers; sent := []; url := TProducts.url; queries := [];
     validationErrors := []; creatingRow := false; editingRow := false;
     callbacks := [] |}.

(** The initial table state of [ProductsTable]. *)
Definition first_page : MRT_PaginationState :=
  {| pageIndex := 0; pageSize := 10 |}.

Definition by_product_id : option MRT_SortingState :=
  Some [ {| sort_id := "product_id"; sort_desc := false |} ].

Definition no_filters : option MRT_ColumnFiltersState := Some [].

Definition page_of (rows : list json) (n : float) : json :=
  JObj [ ("data", JArr rows);
         ("meta", JObj [("totalRowCount", JNum n)]) ].

Definition answer_ok (j : json) : FetchOutcome :=
  Responded {| ok := true; json_body := Some j |}.

Definition answer_status_500 (j : json) : FetchOutcome :=
  Responded {| ok := false; json_body := Some j |}.

Definition bolt : json :=
  JObj [ ("product_id", JNum 1); ("product_name", JStr "Bolt");
         ("supplier", JStr "ACME"); ("item_number", JStr "A-1") ].

Definition server_error_body : json :=
  JObj [ ("error", JStr "Internal Server Error") ].

Definition nut : TProducts.Product :=
  {| TProducts.product_id := None;
     TProducts.product_name := Some "Nut";
     TProducts.supplier := Some "ACME";
     TProducts.item_number := Some "A-2" |}.

Definition unnamed_product : TProducts.Product :=
  {| TProducts.product_id := None;
     TProducts.product_name := Some "";
     TProducts.supplier := Some "ACME";
     TProducts.item_number := Some "A-2" |}.

Definition product_without_supplier : TProducts.Product :=
  {| TProducts.product_id := Some 1%float;
     TProducts.product_name := Some "Bolt";
     TProducts.supplier := Some "";
     TProducts.item_number := Some "A-1" |}.

(** An income row whose total has three decimals. *)
Definition income_with_total (t : float) : TProductsIncome.ProductsIncome :=
  {| TProductsIncome.id := Some 1%float;
     TProductsIncome.income_note_id := Some 7%float;
     TProductsIncome.warehouse_id := Some 2%float;
     TProductsIncome.contractor := Some "ACME";
     TProductsIncome.total := Some t;
     TProductsIncome.date := Some "2024-01-15" |}.

(** A [date-fns] that accepts every date as it is written. *)
Definition same_date (d : string) : option string := Some d.

(** The outcome form filled with note number 5 and one line. *)
Definition header_5 : NoteForms.NoteHeader :=
  {| NoteForms.note_id := 5; NoteForms.warehouse_id := 2;
     NoteForms.contractor := "ACME"; NoteForms.total := 30;
     NoteForms.date := "2024-01-15" |}.

Definition outcome_line : NoteForms.OutcomeNote :=
  {| NoteForms.item_number := "A-1"; NoteForms.price := 10;
     NoteForms.quantity := 3; NoteForms.line_total := 30;
     NoteForms.outcome_note_id := 0 |}.

Definition income_line : NoteForms.IncomeNote :=
  {| NoteForms.in_product_id := 1; NoteForms.in_item_number := "A-1";
     NoteForms.in_price := 10; NoteForms.in_quantity := 3;
     NoteForms.in_total := 30; NoteForms.income_note_id := Some (JNum 0) |}.

(** The header as a server that numbers the notes itself returns it:
    row id 12, note number 77. *)
Definition created_header (id_name : string) : json :=
  JObj [ ("id", JNum 12); (id_name, JNum 77); ("warehouse_id", JNum 2);
         ("contractor", JStr "ACME"); ("total", JNum 30);
         ("date", JStr "2024-01-15") ].

Definition report_row (t : option float) : IntegratedReport.ReportData :=
  {| IntegratedReport.warehouse_id := 3;
     IntegratedReport.item_number := "A-1";
     IntegratedReport.product_name := "Bolt";
     IntegratedReport.total_remaining := None;
     IntegratedReport.total := t |}.

Definition revenue_report (rows : list IntegratedReport.ReportData)
  : IntegratedReport.State :=
  IntegratedReport.setReportData rows
    (IntegratedReport.handleReportTypeChange IntegratedReport.revenue
       (IntegratedReport.initial "2024-01-15")).

(** The world of the outcome table with its form open. *)
Definition outcome_world (answers : list FetchOutcome) : World :=
  {| server := answers; sent := [];
     url := new_URL "http://localhost:5000/api/products_outcome";
     queries := []; validationErrors := []; creatingRow := false;
     editingRow := false; callbacks := [] |}.

(** The products URL object with a parameter of someone else's. *)
Definition tagged_url : URL :=
  {| url_base := TProducts.API_URL; searchParams := [("token", "abc")] |}.

Definition central : RowActions.Warehouse :=
  {| RowActions.warehouse_id := 3; RowActions.warehouse_name := "Central" |}.

Definition north : RowActions.Warehouse :=
  {| RowActions.warehouse_id := 4; RowActions.warehouse_name := "North" |}.

Definition north_again : RowActions.Warehouse :=
  {| RowActions.warehouse_id := 4; RowActions.warehouse_name := "North 2" |}.

Definition first_render : TableView.TableState :=
  {| TableView.pagination := first_page;
     TableView.columnFilters := no_filters;
     TableView.globalFilter := Some "";
     TableView.sorting := by_product_id |}.

Definition clerk : Validation.Employee :=
  {| Validation.id := None;
     Validation.inn := Some "123456789012";
     Validation.warehouse_id := Some 3%float;
     Validation.position_id := Some 1%float;
     Validation.employee_name := Some "Ivanov";
     Validation.phone_number := None |}.

(** The outcome form after the user added a line, then typed the note
    number 5: the line still carries the number 0 it was added with. *)
Definition form_with_stale_line : OutcomeFormState.Form :=
  {| OutcomeFormState.productsOutcome := header_5;
     OutcomeFormState.outcomeNotes := [outcome_line] |}.

(** The report rows read off a JSON answer whose rows follow the
    declared type ([total?: number]): one row per element, with its
    [total] when the key is there. *)
Definition rows_of_json (j : json) : list IntegratedReport.ReportData :=
  match j with
  | JArr items =>
      List.map (fun item => report_row (match getProp item "total" with
                                        | Some (JNum t) => Some t
                                        | _ => None
                                        end)) items
  | _ => []
  end.

Definition a_note : json :=
  JObj [ ("item_number", JStr "A-1"); ("price", JNum 10);
         ("quantity", JNum 3); ("total", JNum 30);
         ("income_note_id", JNum 7) ].

Definition third_page : MRT_PaginationState :=
  {| pageIndex := 2; pageSize := 10 |}.

Definition supplier_filter : option MRT_ColumnFiltersState :=
  Some [ {| filter_id := "supplier"; filter_value := JStr "Acme" |} ].

End Scenario.

(* ================================================================== *)
(** * Properties *)
(* ================================================================== *)

(** ** Dictionaries *)

Section DictFacts.

Context {V : Type}.

Lemma lookup_remove (k k' : string) (d : dict V) :
  lookup k' (remove k d) = if String.eqb k k' then None else lookup k' d.
Proof.
  induction d as [|[k0 v0] d IH]; simpl.
  - now destruct (String.eqb k k').
  - destruct (String.eqb_spec k0 k) as [->|Hk0].
    + rewrite IH. destruct (String.eqb_spec k k'); reflexivity.
    + simpl. rewrite IH.
      destruct (String.eqb_spec k0 k') as [->|Hk0'].
      * destruct (String.eqb_spec k k'); congruence.
      * reflexivity.
Qed.

Lemma lookup_set (k k' : string) (v : V) (d : dict V) :
  lookup k' (set k v d) = if String.eqb k k' then Some v else lookup k' d.
Proof.
  induction d as [|[k0 v0] d IH]; simpl.
  - reflexivity.
  - destruct (String.eqb_spec k0 k) as [->|Hk0]; simpl.
    + destruct (String.eqb_spec k k'); [reflexivity|].
      rewrite lookup_remove.
      destruct (String.eqb_spec k k'); congruence.
    + rewrite IH.
      destruct (String.eqb_spec k0 k') as [->|Hk0'].
      * destruct (String.eqb_spec k k'); congruence.
      * reflexivity.
Qed.

End DictFacts.

Lemma searchParams_get_set (k k' v : string) (u : URL) :
  searchParams_get k' (searchParams_set k v u)
  = if String.eqb k k' then Some v else searchParams_get k' u.
Proof. unfold searchParams_get, searchParams_set; simpl. apply lookup_set. Qed.

(** ** The request of [useGet] *)

(** The condition of the source is the one of the design: the text,
    trimmed, is not empty. *)
Lemma has_globalFilter_trim (gf : option string) :
  has_globalFilter gf
  = negb (String.eqb (JS.trim (globalFilter_text gf)) "").
Proof.
  destruct gf as [g|]; [|reflexivity].
  unfold has_globalFilter, globalFilter_text, JS.truthy_string.
  destruct (String.eqb_spec g "") as [->|_]; reflexivity.
Qed.

(** On a URL object without query the five statements leave exactly
    the parameters of the design, in this order. *)
Lemma set_fetch_params_new_URL p cf gf s (base : string) :
  searchParams (set_fetch_params p cf gf s (new_URL base))
  = ([ ("start", JS.Number_toString (pageIndex p * pageSize p)%float);
       ("size", JS.Number_toString (pageSize p));
       ("filters", stringify (json_of_filters (or_empty cf))) ]
     ++ (if has_globalFilter gf
         then [("globalFilter", ("%" ++ globalFilter_text gf ++ "%")%string)]
         else [])
     ++ [ ("sorting", stringify (json_of_sorting (or_empty s))) ])%list.
Proof.
  unfold set_fetch_params.
  destruct (has_globalFilter gf); reflexivity.
Qed.

(** A request without global filter leaves the [globalFilter]
    parameter of the URL object as it finds it. *)
Lemma set_fetch_params_keeps_globalFilter p cf gf s (u : URL) :
  has_globalFilter gf = false ->
  searchParams_get "globalFilter" (set_fetch_params p cf gf s u)
  = searchParams_get "globalFilter" u.
Proof.
  intros Hgf. unfold set_fetch_params. rewrite Hgf.
  now rewrite !searchParams_get_set.
Qed.

(** The query function sends one GET request, to the URL object of the
    world after the five statements. *)
Lemma useGet_queryFn_sent p cf gf s (w : World) :
  sent (snd (useGet_queryFn p cf gf s w))
  = (sent w ++ [ {| req_method := GET;
                    req_url := set_fetch_params p cf gf s (url w);
                    req_headers := []; req_body := None |} ])%list
  /\ url (snd (useGet_queryFn p cf gf s w)) = set_fetch_params p cf gf s (url w).
Proof.
  unfold useGet_queryFn, bind, read, effect, fetch; simpl.
  destruct (server w) as [|[|r] rest]; simpl.
  - split; reflexivity.
  - split; reflexivity.
  - unfold Response_json. destruct (json_body r); simpl; split; reflexivity.
Qed.

(** The first request of a table: from a URL object that carries no
    [globalFilter] yet, the request has [start], [size], [filters] and
    [sorting] as the design maps them, and [globalFilter] exactly when
    the trimmed text is not empty. *)
Lemma useGet_first_request_parameters p cf gf s (w : World) :
  searchParams_get "globalFilter" (url w) = None ->
  exists rq,
    sent (snd (useGet_queryFn p cf gf s w)) = (sent w ++ [rq])%list
    /\ req_method rq = GET
    /\ url_base (req_url rq) = url_base (url w)
    /\ searchParams_get "start" (req_url rq)
       = Some (JS.Number_toString (pageIndex p * pageSize p)%float)
    /\ searchParams_get "size" (req_url rq)
       = Some (JS.Number_toString (pageSize p))
    /\ searchParams_get "filters" (req_url rq)
       = Some (stringify (JArr (List.map json_of_filter
                                  (match cf with Some fs => fs | None => [] end))))
    /\ searchParams_get "sorting" (req_url rq)
       = Some (stringify (JArr (List.map json_of_sort
                                  (match s with Some ss => ss | None => [] end))))
    /\ searchParams_get "globalFilter" (req_url rq)
       = if String.eqb (JS.trim (globalFilter_text gf)) "" then None
         else Some ("%" ++ globalFilter_text gf ++ "%").
Proof.
  intros Hfresh.
  destruct (useGet_queryFn_sent p cf gf s w) as [Hsent _].
  eexists; split; [exact Hsent|]. simpl.
  pose proof (has_globalFilter_trim gf) as Hcond.
  unfold set_fetch_params.
  destruct (has_globalFilter gf);
    destruct (String.eqb (JS.trim (globalFilter_text gf)) ""); try discriminate;
    rewrite !searchParams_get_set; simpl; rewrite ?Hfresh;
    destruct cf; destruct s; repeat split; reflexivity.
Qed.

(** C1. A table fetches page one with the column filter
    [supplier = Acme], the global filter [bolt] and a sorting by product
    id; the next fetch on the same URL object asks for page three with
    [null] column filters, a global filter of two blanks and a [null]
    sorting. Both requests have [start], [size], [filters] and [sorting]
    as the design maps them ([[]] for [null]), but the second also
    carries [globalFilter=%bolt%] although the trimmed text of its own
    global filter is empty: the parameter should be present only for a
    non-blank filter. *)
Theorem useGet_parameters_after_cleared_filter :
  let page := Scenario.answer_ok (Scenario.page_of [] 0) in
  let w1 :=
    useGet_fetch Scenario.first_page Scenario.supplier_filter (Some "bolt")
      Scenario.by_product_id (Scenario.products_world [page; page]) in
  let w2 := useGet_fetch Scenario.third_page None (Some "  ") None w1 in
  JS.trim "  " = ""
  /\ List.map (fun rq => (req_method rq, searchParams (req_url rq))) (sent w2)
     = [ (GET,
          [ ("start", "0"); ("size", "10");
            ("filters",
             stringify (JArr [JObj [("id", JStr "supplier");
                                    ("value", JStr "Acme")]]));
            ("globalFilter", "%bolt%");
            ("sorting",
             stringify (JArr [JObj [("id", JStr "product_id");
                                    ("desc", JBool false)]])) ]);
         (GET,
          [ ("start", "20"); ("size", "10"); ("filters", "[]");
            ("globalFilter", "%bolt%"); ("sorting", "[]") ]) ].
Proof. vm_compute. split; reflexivity. Qed.

(** A query function that resolves is not run again. *)
Lemma retry_resolved {A} (n : nat) (fn : Async A) (w w' : World) (a : A) :
  fn w = (Resolved a, w') -> retry n fn w = (Resolved a, w').
Proof. intros H. destruct n; simpl; now rewrite H. Qed.

(** C2. The products table fetches with the global filter [bolt] and
    then, the filter cleared, with an empty one (and with a blank one):
    the later requests have no global filter of their own, yet their URL
    still carries [globalFilter=%bolt%]. A request with an empty global
    filter should carry no such parameter. *)
Theorem useGet_empty_globalFilter_after_nonempty :
  let fetch_with g :=
    useGet_fetch Scenario.first_page Scenario.no_filters (Some g)
      Scenario.by_product_id in
  let page := Scenario.answer_ok (Scenario.page_of [] 0) in
  let w3 :=
    fetch_with "   "
      (fetch_with "" (fetch_with "bolt" (Scenario.products_world [page; page; page]))) in
  has_globalFilter (Some "") = false
  /\ has_globalFilter (Some "   ") = false
  /\ List.map (fun rq => searchParams_get "globalFilter" (req_url rq)) (sent w3)
     = [Some "%bolt%"; Some "%bolt%"; Some "%bolt%"].
Proof. vm_compute. repeat split. Qed.

(** ** Invalidation after a mutation *)

Lemma list_key_not_matched (entity : string) p cf gf s :
  entity <> "table-data" ->
  partialMatchKey (useGet_queryKey p cf gf s) [JStr entity] = false.
Proof.
  intros Hne.
  change (partialMatchKey (useGet_queryKey p cf gf s) [JStr entity])
    with (String.eqb "table-data" entity && true)%bool.
  destruct (String.eqb_spec "table-data" entity); [congruence|reflexivity].
Qed.

Lemma invalidateQueries_list_cache (entity : string) (c : QueryCache) :
  entity <> "table-data" ->
  Forall is_list_query c ->
  invalidateQueries [JStr entity] c = c.
Proof.
  intros Hne Hc. unfold invalidateQueries.
  induction Hc as [|q c (p & cf & gf & s & Hq) _ IH]; simpl; [reflexivity|].
  rewrite Hq, list_key_not_matched by exact Hne. now rewrite IH.
Qed.

Lemma mutateAsync_queries (fn : Async json) (k : QueryKey) (w : World) :
  (forall w0, queries (snd (fn w0)) = queries w0) ->
  invalidateQueries k (queries w) = queries w ->
  queries (snd (mutateAsync fn (TProducts.onSuccess_invalidate k) w)) = queries w.
Proof.
  intros Hfn Hk. unfold mutateAsync, bind, TProducts.onSuccess_invalidate, effect, ret.
  specialize (Hfn w). destruct (fn w) as [[a|msg] w']; simpl in *.
  - rewrite Hfn. exact Hk.
  - exact Hfn.
Qed.

Lemma request_queries (rq : Request) (msg : string) (w : World) :
  queries (snd ((response <- fetch rq ;;
                 TProducts.check_ok response msg ;;;
                 Response_json response)%async w)) = queries w.
Proof.
  unfold bind, fetch, TProducts.check_ok, Response_json, throw, ret.
  destruct (server w) as [|[|r] rest]; simpl; try reflexivity.
  destruct (ok r); simpl; [|reflexivity].
  destruct (json_body r); reflexivity.
Qed.

(** C3. When the cache holds the list queries of [useGet], a create,
    update or delete of a product, successful or not, leaves every cached
    query as it was: the key [products] that [onSuccess] invalidates
    matches none of the keys [table-data, ...] of [useGet], so no table
    is made to refetch. *)
Theorem product_mutations_leave_list_cache (w : World) newProduct updatedProduct id :
  Forall is_list_query (queries w) ->
  queries (snd (TProducts.createProduct newProduct w)) = queries w
  /\ queries (snd (TProducts.updateProduct updatedProduct w)) = queries w
  /\ queries (snd (TProducts.deleteProduct id w)) = queries w.
Proof.
  intros Hc.
  assert (Hk : invalidateQueries [JStr "products"] (queries w) = queries w)
    by (apply invalidateQueries_list_cache; [discriminate|exact Hc]).
  repeat split; apply mutateAsync_queries; try exact Hk;
    intros w0; apply request_queries.
Qed.

Lemma product_mutations_leave_list_cache_witness :
  let listed :=
    useGet_fetch Scenario.first_page Scenario.no_filters (Some "")
      Scenario.by_product_id
      (Scenario.products_world
         [ Scenario.answer_ok (Scenario.page_of [Scenario.bolt] 1);
           Scenario.answer_ok Scenario.bolt ]) in
  Forall is_list_query (queries listed)
  /\ fst (TProducts.createProduct Scenario.nut listed) = Resolved Scenario.bolt
  /\ queries (snd (TProducts.createProduct Scenario.nut listed)) = queries listed
  /\ List.map q_isInvalidated (queries listed) = [false].
Proof.
  intros listed.
  assert (Hc : Forall is_list_query (queries listed)).
  { constructor; [|constructor].
    exists Scenario.first_page, Scenario.no_filters, (Some ""), Scenario.by_product_id.
    reflexivity. }
  split; [exact Hc|].
  split; [vm_compute; reflexivity|].
  split; [|vm_compute; reflexivity].
  exact (proj1 (product_mutations_leave_list_cache listed Scenario.nut
                  Scenario.nut 1%float Hc)).
Defined.

(** ** Failures of the list fetch *)

Lemma settle_queryKey r q : queryKey (settle r q) = queryKey q.
Proof. destruct r; reflexivity. Qed.

Lemma find_query_settle_in (k : QueryKey) (r : Result json) (c : QueryCache) :
  find_query (hashKey k) (settle_in k r c)
  = Some (settle r (match find_query (hashKey k) c with
                    | Some q => q
                    | None => new_query k
                    end)).
Proof.
  induction c as [|q c IH].
  - cbn [settle_in find_query]. rewrite settle_queryKey.
    cbn [new_query queryKey]. now rewrite String.eqb_refl.
  - cbn [settle_in find_query].
    destruct (String.eqb (hashKey (queryKey q)) (hashKey k)) eqn:E.
    + cbn [find_query]. now rewrite settle_queryKey, E.
    + cbn [find_query]. now rewrite E, IH.
Qed.

(** The query function never reads [response.ok]: any answer with a
    JSON body resolves it with that body. *)
Lemma useGet_queryFn_resolves p cf gf s (w : World) (r : Response) rest body :
  server w = Responded r :: rest ->
  json_body r = Some body ->
  fst (useGet_queryFn p cf gf s w) = Resolved body.
Proof.
  intros Hs Hb. unfold useGet_queryFn, bind, read, effect, fetch; simpl.
  rewrite Hs; simpl. unfold Response_json. now rewrite Hb.
Qed.

(** C4. The server answers the list fetch with a status outside
    200..299 and a JSON body (here [body], whatever it is): the query
    function resolves with that body, so the hook returns the body as the
    data, in place of any data fetched before, with [isError = false].
    A non-2xx answer should give [isError = true] and keep the previous
    data. *)
Theorem useGet_non_2xx_answer_is_taken_as_data p cf gf s (w : World) body rest :
  let answer := Responded {| ok := false; json_body := Some body |} in
  let w' := with_network (answer :: rest) (sent w) w in
  fst (useGet_queryFn p cf gf s w') = Resolved body
  /\ forall prev,
       useGet_result p cf gf s prev (useGet_fetch p cf gf s w')
       = Some {| data := Some body; isError := false |}.
Proof.
  intros answer w'.
  assert (Hres : fst (useGet_queryFn p cf gf s w') = Resolved body)
    by (eapply useGet_queryFn_resolves; reflexivity).
  split; [exact Hres|]. intros prev.
  unfold useGet_result, useGet_fetch, fetchQuery.
  destruct (useGet_queryFn p cf gf s w') as [r w''] eqn:E. simpl in Hres.
  subst r. rewrite (retry_resolved 3 _ _ E).
  cbn [queries with_queries]. rewrite find_query_settle_in.
  destruct (find_query _ (queries w'')); reflexivity.
Qed.

(** The same on the products table: page one is on screen, the refetch
    is answered with status 500 and an error object, and the table is
    handed the error object without any error flag. *)
Example products_refetch_answered_500 :
  let fetch_list :=
    useGet_fetch Scenario.first_page Scenario.no_filters (Some "")
      Scenario.by_product_id in
  let shown w :=
    useGet_result Scenario.first_page Scenario.no_filters (Some "")
      Scenario.by_product_id None w in
  let w1 :=
    fetch_list
      (Scenario.products_world
         [ Scenario.answer_ok (Scenario.page_of [Scenario.bolt] 1);
           Scenario.answer_status_500 Scenario.server_error_body ]) in
  shown w1 = Some {| data := Some (Scenario.page_of [Scenario.bolt] 1);
                     isError := false |}
  /\ shown (fetch_list w1)
     = Some {| data := Some Scenario.server_error_body; isError := false |}.
Proof. vm_compute. split; reflexivity. Qed.

(** ** Validation of a product row *)

Lemma some_error_validateProduct (values : TProducts.Product) :
  TProducts.some_error (TProducts.validateProduct values)
  = negb (JS.truthy_string (TProducts.product_name values)
          && JS.truthy_string (TProducts.supplier values)
          && JS.truthy_string (TProducts.item_number values)).
Proof.
  unfold TProducts.some_error, TProducts.validateProduct, Web.values; simpl.
  destruct (JS.truthy_string (TProducts.product_name values));
    destruct (JS.truthy_string (TProducts.supplier values));
    destruct (JS.truthy_string (TProducts.item_number values)); reflexivity.
Qed.

(** A save that validation refuses stores the messages and does
    nothing else: no request leaves, nothing is taken from the server
    and the cache is untouched. *)
Lemma refused_save (values : TProducts.Product) (w : World) :
  TProducts.some_error (TProducts.validateProduct values) = true ->
  TProducts.handleCreateProduct values w
  = (Resolved tt, with_validationErrors (TProducts.validateProduct values) w)
  /\ TProducts.handleSaveProduct values w
     = (Resolved tt, with_validationErrors (TProducts.validateProduct values) w).
Proof.
  intros H. unfold TProducts.handleCreateProduct, TProducts.handleSaveProduct.
  rewrite H. split; reflexivity.
Qed.

(** C5. Saving a product row whose [product_name] is empty: validation
    gives [product_name] a non-empty message, the create and the save
    handlers store the messages and return, and no request is sent. *)
Theorem empty_product_name_blocks_save (values : TProducts.Product) (w : World) :
  JS.truthy_string (TProducts.product_name values) = false ->
  let errors := TProducts.validateProduct values in
  lookup "product_name" errors = Some "Наименование обязательно"
  /\ "Наименование обязательно" <> ""
  /\ TProducts.handleCreateProduct values w
     = (Resolved tt, with_validationErrors errors w)
  /\ TProducts.handleSaveProduct values w
     = (Resolved tt, with_validationErrors errors w)
  /\ sent (snd (TProducts.handleCreateProduct values w)) = sent w
  /\ sent (snd (TProducts.handleSaveProduct values w)) = sent w
  /\ validationErrors (snd (TProducts.handleCreateProduct values w)) = errors.
Proof.
  intros Hname errors.
  assert (Herr : TProducts.some_error errors = true).
  { unfold errors. rewrite some_error_validateProduct, Hname. reflexivity. }
  destruct (refused_save values w Herr) as [Hc Hs].
  fold errors in Hc, Hs. rewrite Hc, Hs.
  repeat split; try discriminate.
  unfold errors, TProducts.validateProduct. simpl. now rewrite Hname.
Qed.

Lemma empty_product_name_blocks_save_witness :
  JS.truthy_string (TProducts.product_name Scenario.unnamed_product) = false
  /\ sent (snd (TProducts.handleCreateProduct Scenario.unnamed_product
                  (Scenario.products_world [Scenario.answer_ok Scenario.bolt])))
     = [].
Proof.
  split; [reflexivity|].
  exact (proj1 (proj2 (proj2 (proj2 (proj2
           (empty_product_name_blocks_save Scenario.unnamed_product
              (Scenario.products_world [Scenario.answer_ok Scenario.bolt])
              eq_refl)))))).
Defined.

(** C10. Saving a product row with an empty supplier is refused with a
    non-empty [supplier] message, although the supplier column is
    declared [required: false]: neither handler reaches its mutation, so
    no product is created or updated with an empty supplier. *)
Theorem empty_supplier_blocks_save (values : TProducts.Product) (w : World) :
  JS.truthy_string (TProducts.supplier values) = false ->
  let errors := TProducts.validateProduct values in
  lookup "supplier" errors = Some "Поставщик обязателен"
  /\ "Поставщик обязателен" <> ""
  /\ (forall shown,
        List.map (fun c => (TProducts.accessorKey c,
                            option_map TProducts.required
                              (TProducts.muiEditTextFieldProps c)))
                 (TProducts.columns shown)
        = [ ("product_id", None); ("product_name", Some true);
            ("supplier", Some false); ("item_number", Some true) ])
  /\ TProducts.handleCreateProduct values w
     = (Resolved tt, with_validationErrors errors w)
  /\ TProducts.handleSaveProduct values w
     = (Resolved tt, with_validationErrors errors w)
  /\ sent (snd (TProducts.handleCreateProduct values w)) = sent w
  /\ sent (snd (TProducts.handleSaveProduct values w)) = sent w.
Proof.
  intros Hsup errors.
  assert (Herr : TProducts.some_error errors = true).
  { unfold errors. rewrite some_error_validateProduct, Hsup.
    now rewrite Bool.andb_false_r. }
  destruct (refused_save values w Herr) as [Hc Hs].
  fold errors in Hc, Hs. rewrite Hc, Hs.
  repeat split; try discriminate.
  unfold errors, TProducts.validateProduct. simpl. now rewrite Hsup.
Qed.

Lemma empty_supplier_blocks_save_witness :
  JS.truthy_string (TProducts.supplier Scenario.product_without_supplier) = false
  /\ sent (snd (TProducts.handleSaveProduct Scenario.product_without_supplier
                  (Scenario.products_world [Scenario.answer_ok Scenario.bolt])))
     = [].
Proof.
  split; [reflexivity|].
  exact (proj2 (proj2 (proj2 (proj2 (proj2 (proj2
           (empty_supplier_blocks_save Scenario.product_without_supplier
              (Scenario.products_world [Scenario.answer_ok Scenario.bolt])
              eq_refl))))))).
Defined.

(** ** Validation of a products-income row *)

Section IncomeRow.

Import TProductsIncome.

Variable reformat_date : string -> option string.

(** A row with every required field filled and a total that fails the
    two-decimal check gets the single entry [total] with the empty
    message. *)
Lemma validateProductsIncome_bad_total (v : ProductsIncome) (t : float) :
  JS.truthy_opt_number (income_note_id v) = true ->
  JS.truthy_opt_number (warehouse_id v) = true ->
  JS.truthy_string (contractor v) = true ->
  JS.truthy_string (date v) = true ->
  total v = Some t ->
  JS.truthy_number t = true ->
  JS.Number_isInteger (t * 100)%float = false ->
  validateProductsIncome v = [("total", "")].
Proof.
  intros Hn Hw Hc Hd Ht Htr Hint. unfold validateProductsIncome, set_if.
  rewrite Hn, Hw, Hc, Hd, Ht, Htr, Hint. simpl.
  now rewrite Bool.orb_true_r.
Qed.

(** C6. A products-income row whose required fields are filled and
    whose total is not a whole number of hundredths: the format check
    stores the empty string as the message of [total], the test for a
    non-empty message finds none, and both handlers go on to their
    mutation. A total that fails the check should get a non-empty message
    and abort the save. *)
Theorem bad_total_does_not_block_save (v : ProductsIncome) (t : float) (w : World) :
  JS.truthy_opt_number (income_note_id v) = true ->
  JS.truthy_opt_number (warehouse_id v) = true ->
  JS.truthy_string (contractor v) = true ->
  JS.truthy_string (date v) = true ->
  total v = Some t ->
  JS.truthy_number t = true ->
  JS.Number_isInteger (t * 100)%float = false ->
  lookup "total" (validateProductsIncome v) = Some ""
  /\ TProducts.some_error (validateProductsIncome v) = false
  /\ handleSaveProductsIncome reformat_date v w
     = (effect (with_validationErrors []) ;;;
        updateProductsIncome reformat_date v ;;;
        effect (with_editingRow false))%async w
  /\ handleCreateProductsIncome reformat_date v w
     = (effect (with_validationErrors []) ;;;
        createProductsIncome reformat_date v ;;;
        effect (with_creatingRow false))%async w.
Proof.
  intros Hn Hw Hc Hd Ht Htr Hint.
  pose proof (validateProductsIncome_bad_total v Hn Hw Hc Hd Ht Htr Hint) as E.
  unfold handleSaveProductsIncome, handleCreateProductsIncome.
  rewrite E. repeat split.
Qed.

End IncomeRow.

Lemma bad_total_does_not_block_save_witness :
  let row := Scenario.income_with_total 12.345%float in
  let w := Scenario.products_world [Scenario.answer_ok (JObj [])] in
  JS.Number_isInteger (12.345 * 100)%float = false
  /\ lookup "total" (TProductsIncome.validateProductsIncome row) = Some ""
  /\ List.map req_method
       (sent (snd (TProductsIncome.handleSaveProductsIncome
                     Scenario.same_date row w))) = [PUT].
Proof.
  intros row w.
  split; [vm_compute; reflexivity|].
  split; [|vm_compute; reflexivity].
  exact (proj1 (bad_total_does_not_block_save Scenario.same_date row w
                  eq_refl eq_refl eq_refl eq_refl eq_refl eq_refl eq_refl)).
Defined.

(** ** The compound create of an outcome note *)

Section OutcomeForm.

Import NoteForms.

Variable productsOutcome : NoteHeader.
Variable outcomeNotes : list OutcomeNote.

(** When the header is not created, by a failure of the network, a
    status outside 200..299 or a body that is not JSON, the header
    request is the only one. *)
Lemma outcome_header_refused (w : World) :
  (server w = [] \/ (exists rest, server w = NetworkError :: rest)
   \/ exists r rest, server w = Responded r :: rest
                     /\ (ok r = false \/ json_body r = None)) ->
  exists msg,
    fst (createProductsOutcome_mutationFn productsOutcome outcomeNotes w)
    = Rejected msg
    /\ sent (snd (createProductsOutcome_mutationFn productsOutcome outcomeNotes w))
       = (sent w ++ [outcome_header_request productsOutcome])%list.
Proof.
  unfold createProductsOutcome_mutationFn, bind, fetch, TProducts.check_ok,
    Response_json, throw, ret.
  intros [Hs|[(rest & Hs)|(r & rest & Hs & Hr)]]; rewrite Hs; simpl.
  - eexists; split; reflexivity.
  - eexists; split; reflexivity.
  - destruct (ok r); simpl.
    + destruct Hr as [Hr|Hr]; [discriminate|]. rewrite Hr. simpl.
      eexists; split; reflexivity.
    + eexists; split; reflexivity.
Qed.

(** Once the header is created, the lines are posted, numbered with
    the note number typed into the form; whatever becomes of that second
    request, it is the last one: no request follows a failure of the
    lines, so the header stays. *)
Lemma outcome_two_requests (w : World) r1 created answer2 rest :
  server w = Responded r1 :: answer2 :: rest ->
  ok r1 = true ->
  json_body r1 = Some created ->
  let out := createProductsOutcome_mutationFn productsOutcome outcomeNotes w in
  sent (snd out) = (sent w ++ [outcome_header_request productsOutcome;
                              outcome_lines_request productsOutcome outcomeNotes])%list
  /\ server (snd out) = rest
  /\ fst out = match answer2 with
               | NetworkError => Rejected "Failed to fetch"
               | Responded r2 =>
                   if ok r2 then Resolved created
                   else Rejected "Failed to create outcome notes"
               end.
Proof.
  intros Hs Hok Hb out. unfold out.
  unfold createProductsOutcome_mutationFn, bind, fetch, TProducts.check_ok,
    Response_json, throw, ret.
  rewrite Hs. cbn [fst snd server sent with_network].
  rewrite Hok. cbn [negb fst snd]. rewrite Hb.
  cbn [fst snd server sent with_network].
  rewrite <- app_assoc.
  destruct answer2 as [|r2]; cbn [fst snd server sent with_network].
  - repeat split.
  - destruct (ok r2); cbn [negb fst snd server sent with_network]; repeat split.
Qed.

End OutcomeForm.

(** C7. The outcome form is submitted with note number 5 and the
    server, creating the header, returns it with the note number 77 it
    assigned. The form posts the header, then the lines, and the lines
    carry 5, the number typed into the form, not the 77 of the created
    header; the income form, on the same answers, posts its lines with 77.
    The lines should reference the id obtained from the first call. *)
Theorem outcome_lines_ignore_created_header :
  let sent_by (w : World) :=
    List.map (fun rq => (req_method rq, href (req_url rq), req_body rq)) (sent w) in
  let outcome :=
    NoteForms.handleSubmit_outcome Scenario.header_5 [Scenario.outcome_line]
      (Scenario.outcome_world
         [ Scenario.answer_ok (Scenario.created_header "outcome_note_id");
           Scenario.answer_ok (JArr []) ]) in
  let income :=
    snd (NoteForms.createProductsIncome_mutationFn Scenario.header_5
           [Scenario.income_line]
           (Scenario.outcome_world
              [ Scenario.answer_ok (Scenario.created_header "income_note_id");
                Scenario.answer_ok (JArr []) ])) in
  getProp (Scenario.created_header "outcome_note_id") "outcome_note_id"
  = Some (JNum 77)
  /\ sent_by outcome
     = [ (POST, "http://localhost:5000/api/products_outcome",
          Some (stringify (NoteForms.json_of_header "outcome_note_id"
                             Scenario.header_5)));
         (POST, "http://localhost:5000/api/outcome_notes",
          Some (stringify
                  (JArr [NoteForms.json_of_OutcomeNote
                           (NoteForms.with_outcome_note_id 5
                              Scenario.outcome_line)]))) ]
  /\ sent_by income
     = [ (POST, "http://localhost:5000/api/products_income",
          Some (stringify (NoteForms.json_of_header "income_note_id"
                             Scenario.header_5)));
         (POST, "http://localhost:5000/api/income_notes",
          Some (stringify
                  (JArr [NoteForms.json_of_IncomeNote
                           (NoteForms.with_income_note_id (Some (JNum 77))
                              Scenario.income_line)]))) ]
  /\ callbacks outcome = ["onSuccess"; "onClose"].
Proof. vm_compute. repeat split. Qed.

(** The lines fail after the header was created: two requests were
    sent, both POST, and none after them. *)
Example outcome_lines_fail_header_stays :
  let w :=
    NoteForms.handleSubmit_outcome Scenario.header_5 [Scenario.outcome_line]
      (Scenario.outcome_world
         [ Scenario.answer_ok (Scenario.created_header "outcome_note_id");
           Scenario.answer_status_500 Scenario.server_error_body;
           Scenario.answer_ok (JArr []) ]) in
  List.map req_method (sent w) = [POST; POST]
  /\ server w = [Scenario.answer_ok (JArr [])]
  /\ callbacks w = [].
Proof. vm_compute. repeat split. Qed.

(** The income form when the header POST is answered with the body
    [null]: with a line to send, reading the note number throws and the
    lines are not posted; without lines nothing is read and the second
    POST goes out with an empty list. *)
Example income_header_answered_null :
  let answers := [Scenario.answer_ok JNull; Scenario.answer_ok (JArr [])] in
  let with_line :=
    NoteForms.createProductsIncome_mutationFn Scenario.header_5
      [Scenario.income_line] (Scenario.outcome_world answers) in
  let without_lines :=
    NoteForms.createProductsIncome_mutationFn Scenario.header_5 []
      (Scenario.outcome_world answers) in
  fst with_line = Rejected "Cannot read properties of null"
  /\ List.map req_method (sent (snd with_line)) = [POST]
  /\ fst without_lines = Resolved JNull
  /\ List.map (fun rq => (req_method rq, req_body rq)) (sent (snd without_lines))
     = [ (POST, Some (stringify (NoteForms.json_of_header "income_note_id"
                                  Scenario.header_5)));
         (POST, Some "[]") ].
Proof. vm_compute. repeat split. Qed.

(** ** The report form *)

Section Report.

Import IntegratedReport.

(** C9. Changing the report kind selects the new kind, empties the
    fetched report data and leaves a sort-by key that the menu of the new
    kind offers: [total] becomes [total_remaining] on the way to
    inventory, [total_remaining] becomes [total] on the way to revenue or
    cost, and every other key is kept. *)
Theorem report_type_change (t : ReportType) (st : State) :
  let st' := handleReportTypeChange t st in
  reportType st' = t
  /\ reportData st' = []
  /\ In (sortBy (reportParams st')) (sortBy_options t)
  /\ sortBy (reportParams
               (handleReportTypeChange inventory
                  (handleSortByChange sort_total st))) = sort_total_remaining
  /\ sortBy (reportParams
               (handleReportTypeChange revenue
                  (handleSortByChange sort_total_remaining st))) = sort_total
  /\ sortBy (reportParams
               (handleReportTypeChange cost
                  (handleSortByChange sort_total_remaining st))) = sort_total
  /\ (if (SortBy_eqb (sortBy (reportParams st)) sort_total
          || SortBy_eqb (sortBy (reportParams st)) sort_total_remaining)%bool
      then True
      else sortBy (reportParams st') = sortBy (reportParams st)).
Proof.
  unfold handleReportTypeChange.
  destruct t; destruct (sortBy (reportParams st)) eqn:E; simpl;
    rewrite ?E; repeat split; auto 6.
Qed.

(** X28. The sort-by key stays one of the offered keys in every state the
    form can reach. *)
Lemma sortBy_always_offered (today : string) (st : State) :
  reachable (initial today) st ->
  In (sortBy (reportParams st)) (sortBy_options (reportType st)).
Proof.
  induction 1 as [|st ev st' _ IH Hstep].
  - simpl. auto.
  - destruct Hstep as [st t|st v Hv|st rows].
    + unfold handleReportTypeChange.
      destruct t; destruct (sortBy (reportParams st)) eqn:E; simpl;
        rewrite ?E; simpl; auto 6.
    + exact Hv.
    + exact IH.
Qed.

(** The sum runs over the rows from first to last; a row without
    total, or with total zero, adds [0]. *)
Lemma totalAmount_snoc (rows : list ReportData) (r : ReportData) :
  totalAmount (rows ++ [r]) = (totalAmount rows + total_or_zero r)%float.
Proof. unfold totalAmount. now rewrite fold_left_app. Qed.

Lemma total_or_zero_missing (r : ReportData) :
  total r = None -> total_or_zero r = 0%float.
Proof. unfold total_or_zero. now intros ->. Qed.

End Report.

(** *** Fixed notation *)

Lemma NilEmpty_digits (u : Decimal.uint) :
  forallb JS.is_digit (list_ascii_of_string (NilEmpty.string_of_uint u)) = true.
Proof. induction u; simpl; auto. Qed.

Lemma decimal_digits (n : Z) :
  forallb JS.is_digit (list_ascii_of_string (JS.decimal n)) = true
  /\ (1 <= List.length (list_ascii_of_string (JS.decimal n)))%nat.
Proof.
  unfold JS.decimal, NilZero.string_of_uint.
  destruct (N.to_uint (Z.to_N n)) as [|u|u|u|u|u|u|u|u|u|u] eqn:E;
    try (split; [reflexivity | simpl; lia]);
    (split; [apply NilEmpty_digits | simpl; lia]).
Qed.

Lemma forallb_repeat_zero (k : nat) :
  forallb JS.is_digit (List.repeat "0"%char k) = true.
Proof. induction k; simpl; auto. Qed.

Lemma forallb_reversed {A} (f : A -> bool) (l : list A) :
  forallb f (List.rev l) = forallb f l.
Proof.
  induction l as [|a l IH]; simpl; [reflexivity|].
  rewrite forallb_app, IH. simpl.
  now rewrite Bool.andb_true_r, Bool.andb_comm.
Qed.

(** Splitting three or more digits before the last two gives fixed
    notation with two decimals. *)
Lemma split_two_decimals (l : list ascii) :
  (3 <= List.length l)%nat ->
  forallb JS.is_digit l = true ->
  JS.unsigned_two_decimals
    (firstn (List.length l - 2) l ++ "."%char :: skipn (List.length l - 2) l)
  = true
  /\ exists c r, firstn (List.length l - 2) l = c :: r /\ JS.is_digit c = true.
Proof.
  intros Hlen Hdig.
  pose proof (firstn_skipn (List.length l - 2) l) as Hsplit.
  remember (firstn (List.length l - 2) l) as a eqn:Ha.
  remember (skipn (List.length l - 2) l) as b eqn:Hb.
  assert (Hla : List.length a = (List.length l - 2)%nat)
    by (subst a; rewrite length_firstn; lia).
  assert (Hlb : List.length b = 2%nat)
    by (subst b; rewrite length_skipn; lia).
  rewrite <- Hsplit, forallb_app in Hdig.
  apply Bool.andb_true_iff in Hdig as [Hda Hdb].
  destruct b as [|d1 [|d2 [|x b]]]; try discriminate.
  simpl in Hdb. apply Bool.andb_true_iff in Hdb as [Hd1 Hdb].
  apply Bool.andb_true_iff in Hdb as [Hd2 _].
  split.
  - unfold JS.unsigned_two_decimals.
    rewrite rev_app_distr. simpl.
    rewrite Hd1, Hd2, length_rev, Hla. simpl.
    rewrite forallb_reversed, Hda.
    destruct (List.length l - 2)%nat eqn:E; [lia|reflexivity].
  - destruct a as [|c r]; [simpl in Hla; lia|].
    simpl in Hda. apply Bool.andb_true_iff in Hda as [Hc _].
    exists c, r. split; [reflexivity|exact Hc].
Qed.

Lemma fixed2_digits_shape (n : Z) :
  JS.unsigned_two_decimals (list_ascii_of_string (JS.fixed2_digits n)) = true
  /\ exists c r, JS.fixed2_digits n = String c r /\ JS.is_digit c = true.
Proof.
  unfold JS.fixed2_digits.
  destruct (decimal_digits n) as [Hdig Hlen].
  set (m := list_ascii_of_string (JS.decimal n)) in *.
  set (m' := if Nat.leb (List.length m) 2
             then (List.repeat "0"%char (3 - List.length m) ++ m)%list else m).
  assert (Hm' : (3 <= List.length m')%nat /\ forallb JS.is_digit m' = true).
  { unfold m'. destruct (Nat.leb_spec (List.length m) 2).
    - rewrite length_app, repeat_length, forallb_app, forallb_repeat_zero, Hdig.
      split; [lia|reflexivity].
    - split; [lia|exact Hdig]. }
  destruct Hm' as [Hl Hd].
  destruct (split_two_decimals m' Hl Hd) as [Hshape (c & r & Hc & Hcd)].
  rewrite list_ascii_of_string_of_list_ascii. split; [exact Hshape|].
  rewrite Hc. simpl. eauto.
Qed.

Lemma digit_is_not_minus (c : ascii) :
  JS.is_digit c = true -> Ascii.eqb c "-" = false.
Proof.
  intros H. destruct (Ascii.eqb_spec c "-") as [->|]; [discriminate|reflexivity].
Qed.

(** [toFixed(2)] of a finite number below [10^21] in magnitude is in
    fixed notation with exactly two decimals. *)
Lemma toFixed2_two_decimals (x : float) :
  JS.finite_below_1e21 x = true ->
  JS.has_two_decimals (JS.toFixed2 x) = true.
Proof.
  unfold JS.finite_below_1e21, JS.toFixed2.
  destruct (Prim2SF x) as [sg| sg | |sg m e]; try discriminate.
  - intros _. destruct (fixed2_digits_shape 0) as [Hs (c & r & Hc & Hd)].
    unfold JS.has_two_decimals. rewrite Hc in *.
    now rewrite (digit_is_not_minus _ Hd).
  - intros H. apply Bool.negb_true_iff in H. rewrite H.
    destruct (fixed2_digits_shape (JS.nearest_hundredths m e))
      as [Hs (c & r & Hc & Hd)].
    destruct sg; simpl.
    + exact Hs.
    + unfold JS.has_two_decimals. rewrite Hc in *.
      now rewrite (digit_is_not_minus _ Hd).
Qed.

Section GrandTotal.

Import IntegratedReport.

Lemma fold_left_pointwise {A B} (f g : A -> B -> A) (l : list B) (a : A) :
  (forall x y, f x y = g x y) ->
  List.fold_left f l a = List.fold_left g l a.
Proof.
  intros H. revert a. induction l as [|y l IH]; intros a; simpl; [reflexivity|].
  now rewrite H, IH.
Qed.

(** The sum the component computes is the sum of the [total] fields
    in row order, a total that is missing, zero or [NaN] counting as 0. *)
Lemma totalAmount_is_the_sum (rows : list ReportData) :
  totalAmount rows
  = List.fold_left
      (fun sum item =>
         (sum + match total item with
                | Some t => if (PrimFloat.is_zero t || PrimFloat.is_nan t)%bool
                            then 0 else t
                | None => 0
                end)%float)
      rows 0%float.
Proof.
  unfold totalAmount. apply fold_left_pointwise. intros x item.
  unfold total_or_zero, JS.truthy_number.
  destruct (total item) as [t|]; [|reflexivity].
  destruct (PrimFloat.is_zero t || PrimFloat.is_nan t)%bool; reflexivity.
Qed.

(** C8, as the code has it. Once the warehouses are loaded, for a
    revenue or cost report with at least one row the line under the table
    shows [toFixed(2)] of the sum of the rows' totals (binary64 additions
    from the first row on; a total that is missing, zero or [NaN] counts
    as 0) followed by the rouble sign; the amount has exactly two
    decimals whenever that sum is finite and below [10^21] in magnitude.
    While the warehouses are loading or failed no line is rendered. *)
Theorem grand_total_rendering (st : State) :
  reportType st <> inventory ->
  reportData st <> [] ->
  let sum :=
    List.fold_left
      (fun acc item =>
         (acc + match total item with
                | Some t => if (PrimFloat.is_zero t || PrimFloat.is_nan t)%bool
                            then 0 else t
                | None => 0
                end)%float)
      (reportData st) 0%float in
  grand_total_line false false st = Some ("Итого: " ++ JS.toFixed2 sum ++ "₽")
  /\ (if JS.finite_below_1e21 sum
      then JS.has_two_decimals (JS.toFixed2 sum) = true
      else True)
  /\ (forall isError, grand_total_line true isError st = None)
  /\ grand_total_line false true st = None.
Proof.
  intros Hkind Hrows sum.
  assert (Hsum : totalAmount (reportData st) = sum)
    by apply totalAmount_is_the_sum.
  split; [|split; [|split]].
  - unfold grand_total_line, grand_total_text. rewrite Hsum.
    destruct (reportData st) as [|r rows]; [congruence|].
    destruct (reportType st); [congruence|reflexivity|reflexivity].
  - destruct (JS.finite_below_1e21 sum) eqn:E;
      [now apply toFixed2_two_decimals|exact I].
  - reflexivity.
  - reflexivity.
Qed.

(** Scenario E with a row without total and a row of zero among the
    three that count: 50 + nothing + 0 + 75.5 + 24.5 give [150.00₽]. *)
Lemma grand_total_rendering_witness :
  let st := Scenario.revenue_report
              [ Scenario.report_row (Some 50%float);
                Scenario.report_row None;
                Scenario.report_row (Some 0%float);
                Scenario.report_row (Some 75.5%float);
                Scenario.report_row (Some 24.5%float) ] in
  grand_total_line false false st = Some "Итого: 150.00₽".
Proof.
  intros st.
  assert (Hkind : reportType st <> inventory) by discriminate.
  assert (Hrows : reportData st <> []) by discriminate.
  destruct (grand_total_rendering st Hkind Hrows) as (Hline & _).
  rewrite Hline. vm_compute. reflexivity.
Defined.

(** Scenario E as written: three rows of 50 give [150.00₽]. *)
Example grand_total_of_three_rows :
  grand_total_line false false
    (Scenario.revenue_report
       [ Scenario.report_row (Some 50%float);
         Scenario.report_row (Some 50%float);
         Scenario.report_row (Some 50%float) ])
  = Some "Итого: 150.00₽".
Proof. vm_compute. reflexivity. Qed.

(** Totals that are not binary fractions, and a row without total:
    49.99 + 50.01 + nothing + 50 is shown as [150.00₽]. *)
Example grand_total_of_decimal_rows :
  grand_total_line false false
    (Scenario.revenue_report
       [ Scenario.report_row (Some 49.99%float);
         Scenario.report_row (Some 50.01%float);
         Scenario.report_row None;
         Scenario.report_row (Some 50%float) ])
  = Some "Итого: 150.00₽".
Proof. vm_compute. reflexivity. Qed.

(** Two rows of [1e308]: their sum overflows and the line reads
    [Infinity₽], which has no decimals at all. *)
Lemma grand_total_overflow :
  let st := Scenario.revenue_report
              [ Scenario.report_row (Some 1e308%float);
                Scenario.report_row (Some 1e308%float) ] in
  grand_total_line false false st = Some "Итого: Infinity₽"
  /\ JS.has_two_decimals (JS.toFixed2 (totalAmount (reportData st))) = false.
Proof. vm_compute. split; reflexivity. Qed.

(** And one row of [1e21] reads [1e+21₽]. *)
Example grand_total_exponent_form :
  grand_total_line false false
    (Scenario.revenue_report [Scenario.report_row (Some 1e21%float)])
  = Some "Итого: 1e+21₽".
Proof. vm_compute. reflexivity. Qed.

End GrandTotal.

(* ================================================================== *)
(** * Further properties of the sources *)
(* ================================================================== *)

(** ** The URL object across fetches *)

Section UrlObject.

Import TableView.

Lemma occurrences_cons (k k0 v0 : string) (d : dict string) :
  occurrences k ((k0, v0) :: d)
  = ((if String.eqb k0 k then 1 else 0) + occurrences k d)%nat.
Proof. unfold occurrences. simpl. now destruct (String.eqb k0 k). Qed.

Lemma occurrences_remove (k k' : string) (d : dict string) :
  occurrences k (remove k' d)
  = if String.eqb k' k then O else occurrences k d.
Proof.
  induction d as [|[k0 v0] d IH].
  - simpl. now destruct (String.eqb k' k).
  - cbn [remove]. destruct (String.eqb_spec k0 k') as [->|Hk0].
    + rewrite IH, occurrences_cons.
      destruct (String.eqb k' k); reflexivity.
    + rewrite !occurrences_cons, IH.
      destruct (String.eqb_spec k0 k) as [->|Hk];
        destruct (String.eqb_spec k' k); try congruence; reflexivity.
Qed.

Lemma occurrences_set (k k' v : string) (d : dict string) :
  occurrences k (set k' v d)
  = if String.eqb k' k then 1%nat else occurrences k d.
Proof.
  induction d as [|[k0 v0] d IH].
  - cbn [set]. rewrite occurrences_cons. unfold occurrences. simpl.
    now destruct (String.eqb k' k).
  - cbn [set]. destruct (String.eqb_spec k0 k') as [->|Hk0].
    + rewrite !occurrences_cons, occurrences_remove.
      destruct (String.eqb k' k); reflexivity.
    + rewrite !occurrences_cons, IH.
      destruct (String.eqb_spec k0 k) as [->|Hk];
        destruct (String.eqb_spec k' k); try congruence; reflexivity.
Qed.

Lemma occurrences_searchParams_set (k k' v : string) (u : URL) :
  occurrences k (searchParams (searchParams_set k' v u))
  = if String.eqb k' k then 1%nat else occurrences k (searchParams u).
Proof. apply occurrences_set. Qed.

(** X1. However many entries of a name the URL object held, after the
    query function has written its parameters [start], [size], [filters]
    and [sorting] occur exactly once each; [globalFilter] occurs once
    when the request has a global filter and as often as before when it
    has none. *)
Theorem useGet_parameters_occur_once p cf gf s (u : URL) :
  let after := searchParams (set_fetch_params p cf gf s u) in
  occurrences "start" after = 1%nat
  /\ occurrences "size" after = 1%nat
  /\ occurrences "filters" after = 1%nat
  /\ occurrences "sorting" after = 1%nat
  /\ occurrences "globalFilter" after
     = if has_globalFilter gf then 1%nat
       else occurrences "globalFilter" (searchParams u).
Proof.
  unfold set_fetch_params.
  destruct (has_globalFilter gf);
    cbv zeta; rewrite !occurrences_searchParams_set; repeat split.
Qed.

(** X2. The query function touches only its five parameters: every
    other parameter of the URL object, and what precedes the query, is
    sent as it was. *)
Theorem useGet_keeps_other_parameters p cf gf s (u : URL) (k : string) :
  ~ In k ["start"; "size"; "filters"; "globalFilter"; "sorting"] ->
  searchParams_get k (set_fetch_params p cf gf s u) = searchParams_get k u
  /\ url_base (set_fetch_params p cf gf s u) = url_base u.
Proof.
  intros Hk.
  assert (H1 : String.eqb "start" k = false)
    by (apply String.eqb_neq; intros <-; apply Hk; simpl; auto).
  assert (H2 : String.eqb "size" k = false)
    by (apply String.eqb_neq; intros <-; apply Hk; simpl; auto).
  assert (H3 : String.eqb "filters" k = false)
    by (apply String.eqb_neq; intros <-; apply Hk; simpl; auto).
  assert (H4 : String.eqb "globalFilter" k = false)
    by (apply String.eqb_neq; intros <-; apply Hk; simpl; auto).
  assert (H5 : String.eqb "sorting" k = false)
    by (apply String.eqb_neq; intros <-; apply Hk; simpl; auto 6).
  unfold set_fetch_params.
  destruct (has_globalFilter gf); cbv zeta;
    rewrite !searchParams_get_set, ?H1, ?H2, ?H3, ?H4, ?H5;
    split; reflexivity.
Qed.

Lemma useGet_keeps_other_parameters_witness :
  searchParams_get "token"
    (set_fetch_params Scenario.first_page Scenario.no_filters (Some "bolt")
       Scenario.by_product_id Scenario.tagged_url) = Some "abc".
Proof.
  refine (eq_trans
            (proj1 (useGet_keeps_other_parameters Scenario.first_page
                      Scenario.no_filters (Some "bolt") Scenario.by_product_id
                      Scenario.tagged_url (k := "token") _)) eq_refl).
  simpl. intros [H|[H|[H|[H|[H|[]]]]]]; discriminate H.
Defined.

Lemma set_fetch_params_globalFilter p cf gf s (u : URL) :
  searchParams_get "globalFilter" (set_fetch_params p cf gf s u)
  = if has_globalFilter gf
    then Some ("%" ++ globalFilter_text gf ++ "%")
    else searchParams_get "globalFilter" u.
Proof.
  unfold set_fetch_params.
  destruct (has_globalFilter gf); cbv zeta;
    rewrite !searchParams_get_set; reflexivity.
Qed.

Lemma remove_absent (k : string) (d : dict string) :
  occurrences k d = O -> remove k d = d.
Proof.
  induction d as [|[k0 v0] d IH]; [reflexivity|].
  rewrite occurrences_cons. cbn [remove].
  destruct (String.eqb k0 k); [discriminate|].
  intros H. now rewrite IH.
Qed.

Lemma set_present (k v : string) (d : dict string) :
  lookup k d = Some v -> occurrences k d = 1%nat -> set k v d = d.
Proof.
  induction d as [|[k0 v0] d IH]; [discriminate|].
  rewrite occurrences_cons. cbn [lookup set].
  destruct (String.eqb_spec k0 k) as [->|Hk0].
  - intros [= ->] Hocc. rewrite remove_absent; [reflexivity|lia].
  - intros Hl Hocc. now rewrite IH.
Qed.

Lemma searchParams_set_same (k v : string) (u : URL) :
  searchParams_get k u = Some v ->
  occurrences k (searchParams u) = 1%nat ->
  searchParams_set k v u = u.
Proof.
  destruct u as [base ps]. unfold searchParams_get, searchParams_set.
  cbn [searchParams url_base]. intros Hl Hocc. now rewrite set_present.
Qed.

(** Writing the parameters of a request a second time changes
    nothing. *)
Lemma set_fetch_params_twice p cf gf s (u : URL) :
  set_fetch_params p cf gf s (set_fetch_params p cf gf s u)
  = set_fetch_params p cf gf s u.
Proof.
  set (d := set_fetch_params p cf gf s u).
  assert (Hget : forall k v,
             searchParams_get k d = Some v ->
             occurrences k (searchParams d) = 1%nat ->
             searchParams_set k v d = d)
    by (intros; now apply searchParams_set_same).
  unfold set_fetch_params. cbv zeta.
  destruct (has_globalFilter gf) eqn:Hg.
  - rewrite !Hget; try reflexivity;
      unfold d, set_fetch_params; rewrite Hg; cbv zeta;
      rewrite ?searchParams_get_set, ?occurrences_searchParams_set;
      reflexivity.
  - rewrite !Hget; try reflexivity;
      unfold d, set_fetch_params; rewrite Hg; cbv zeta;
      rewrite ?searchParams_get_set, ?occurrences_searchParams_set;
      reflexivity.
Qed.

(** One run of the query function: one GET request to the URL object
    after the five statements, the next answer consumed, the cache left
    alone. *)
Lemma useGet_queryFn_run p cf gf s (w : World) :
  let w' := snd (useGet_queryFn p cf gf s w) in
  sent w' = (sent w ++ [ {| req_method := GET;
                            req_url := set_fetch_params p cf gf s (url w);
                            req_headers := []; req_body := None |} ])%list
  /\ url w' = set_fetch_params p cf gf s (url w)
  /\ queries w' = queries w
  /\ server w' = List.tl (server w).
Proof.
  unfold useGet_queryFn, bind, read, effect, fetch; simpl.
  destruct (server w) as [|[|r] rest]; simpl.
  - repeat split; reflexivity.
  - repeat split; reflexivity.
  - unfold Response_json. destruct (json_body r); simpl; repeat split; reflexivity.
Qed.

Lemma useGet_queryFn_failing p cf gf s (w : World) :
  forallb answer_fails (List.firstn 1 (server w)) = true ->
  exists msg, fst (useGet_queryFn p cf gf s w) = Rejected msg.
Proof.
  unfold useGet_queryFn, bind, read, effect, fetch; simpl.
  destruct (server w) as [|[|r] rest]; simpl.
  - eexists; reflexivity.
  - eexists; reflexivity.
  - unfold Response_json. destruct (json_body r); simpl; [discriminate|].
    eexists; reflexivity.
Qed.

(** The query function with its retries: between one and [n + 1]
    identical requests are sent, and the URL object is left as the first
    run left it. *)
Lemma useGet_retry p cf gf s (n : nat) (w : World) :
  let w' := snd (retry n (useGet_queryFn p cf gf s) w) in
  let rq := {| req_method := GET;
               req_url := set_fetch_params p cf gf s (url w);
               req_headers := []; req_body := None |} in
  url w' = set_fetch_params p cf gf s (url w)
  /\ queries w' = queries w
  /\ exists m, (1 <= m <= S n)%nat
       /\ sent w' = (sent w ++ List.repeat rq m)%list.
Proof.
  revert w. induction n as [|n IH]; intros w; cbv zeta;
    destruct (useGet_queryFn_run p cf gf s w) as (Hsent & Hurl & Hq & _);
    cbv zeta in Hsent, Hurl, Hq; cbn [retry];
    destruct (useGet_queryFn p cf gf s w) as [[a|msg] w1];
    cbn [snd] in *;
    try (split; [exact Hurl|split; [exact Hq|]];
         exists 1%nat; split; [lia|exact Hsent]).
  destruct (IH w1) as (Hurl' & Hq' & m & Hm & Hsent'). cbv zeta in *.
  rewrite Hurl', Hq', Hsent', Hurl, Hq, Hsent, set_fetch_params_twice.
  split; [reflexivity|split; [reflexivity|]].
  exists (S m). split; [lia|]. now rewrite <- app_assoc.
Qed.

(** When the answers to the first run and to every retry fail, all
    [n + 1] requests are sent and the query function stays rejected. *)
Lemma useGet_retry_rejected p cf gf s (n : nat) (w : World) :
  forallb answer_fails (List.firstn (S n) (server w)) = true ->
  let out := retry n (useGet_queryFn p cf gf s) w in
  let rq := {| req_method := GET;
               req_url := set_fetch_params p cf gf s (url w);
               req_headers := []; req_body := None |} in
  (exists msg, fst out = Rejected msg)
  /\ sent (snd out) = (sent w ++ List.repeat rq (S n))%list.
Proof.
  revert w. induction n as [|n IH]; intros w Hfail; cbv zeta;
    destruct (useGet_queryFn_run p cf gf s w) as (Hsent & Hurl & _ & Hsv);
    cbv zeta in Hsent, Hurl, Hsv;
    assert (Hfirst : forallb answer_fails (List.firstn 1 (server w)) = true)
      by (destruct (server w) as [|o rest]; [reflexivity|];
          cbn [List.firstn forallb] in Hfail |- *;
          apply andb_prop in Hfail; now rewrite (proj1 Hfail));
    destruct (useGet_queryFn_failing p cf gf s w Hfirst) as (msg0 & Hrej);
    cbn [retry];
    destruct (useGet_queryFn p cf gf s w) as [[a|msg] w1];
    cbn [fst snd] in *; try discriminate.
  - split; [eexists; reflexivity|exact Hsent].
  - assert (Hrest : forallb answer_fails (List.firstn (S n) (server w1)) = true).
    { rewrite Hsv. destruct (server w) as [|o rest]; [reflexivity|].
      cbn [List.tl]. change (List.firstn (S (S n)) (o :: rest))
        with (o :: List.firstn (S n) rest) in Hfail.
      cbn [forallb] in Hfail. apply andb_prop in Hfail. exact (proj2 Hfail). }
    destruct (IH w1 Hrest) as (Hmsg & Hsent'). cbv zeta in *.
    split; [exact Hmsg|].
    rewrite Hsent', Hurl, Hsent, set_fetch_params_twice, <- app_assoc.
    reflexivity.
Qed.

Lemma fetchQuery_fields k (fn : Async json) (w : World) :
  sent (fetchQuery k fn w) = sent (snd (retry 3 fn w))
  /\ url (fetchQuery k fn w) = url (snd (retry 3 fn w))
  /\ server (fetchQuery k fn w) = server (snd (retry 3 fn w)).
Proof. unfold fetchQuery. destruct (retry 3 fn w) as [r w']. repeat split. Qed.

Lemma fetch_with_url (t : TableState) (w : World) :
  url (fetch_with t w)
  = set_fetch_params (pagination t) (columnFilters t) (globalFilter t)
      (sorting t) (url w).
Proof.
  unfold fetch_with, useGet_fetch.
  destruct (fetchQuery_fields
              (useGet_queryKey (pagination t) (columnFilters t)
                 (globalFilter t) (sorting t))
              (useGet_queryFn (pagination t) (columnFilters t)
                 (globalFilter t) (sorting t)) w) as (_ & -> & _).
  apply useGet_retry.
Qed.

(** After a request with a global filter, the requests of a fetch
    without one still carry the parameter of the earlier request. *)
Lemma useGet_second_fetch_globalFilter p1 cf1 g1 s1 p2 cf2 gf2 s2 (w : World) :
  has_globalFilter (Some g1) = true ->
  has_globalFilter gf2 = false ->
  let w1 := useGet_fetch p1 cf1 (Some g1) s1 w in
  let w2 := useGet_fetch p2 cf2 gf2 s2 w1 in
  exists rq m,
    (1 <= m <= 4)%nat
    /\ sent w2 = (sent w1 ++ List.repeat rq m)%list
    /\ searchParams_get "globalFilter" (req_url rq) = Some ("%" ++ g1 ++ "%").
Proof.
  intros H1 H2 w1 w2. unfold w2, useGet_fetch.
  destruct (fetchQuery_fields (useGet_queryKey p2 cf2 gf2 s2)
              (useGet_queryFn p2 cf2 gf2 s2) w1) as (-> & _ & _).
  destruct (useGet_retry p2 cf2 gf2 s2 3 w1) as (_ & _ & m & Hm & ->).
  eexists _, m; split; [exact Hm|split; [reflexivity|]]. cbn [req_url].
  rewrite set_fetch_params_keeps_globalFilter by exact H2.
  unfold w1, useGet_fetch.
  destruct (fetchQuery_fields (useGet_queryKey p1 cf1 (Some g1) s1)
              (useGet_queryFn p1 cf1 (Some g1) s1) w) as (_ & -> & _).
  destruct (useGet_retry p1 cf1 (Some g1) s1 3 w) as (-> & _).
  unfold set_fetch_params. rewrite H1.
  rewrite !searchParams_get_set. reflexivity.
Qed.

(** X3. After any run of renders of a table, the [globalFilter]
    parameter of its URL object is the filter of the last render that had
    a non-blank one, and what the object held at the start when no render
    had one: a filter, once written, is never taken out. *)
Theorem useGet_globalFilter_after_renders (renders : list TableState) (w : World) :
  searchParams_get "globalFilter" (url (fetch_all renders w))
  = last_globalFilter renders (searchParams_get "globalFilter" (url w)).
Proof.
  unfold fetch_all, last_globalFilter.
  revert w. induction renders as [|t renders IH]; intros w; simpl.
  - reflexivity.
  - rewrite IH, fetch_with_url, set_fetch_params_globalFilter. reflexivity.
Qed.

(** ** What the grid is given *)

Lemma useGet_result_after_answer p cf gf s prev (w : World) r rest body :
  server w = Responded r :: rest ->
  json_body r = Some body ->
  useGet_result p cf gf s prev (useGet_fetch p cf gf s w)
  = Some {| data := Some body; isError := false |}.
Proof.
  intros Hs Hb.
  pose proof (useGet_queryFn_resolves p cf gf s w Hs Hb) as Hres.
  unfold useGet_result, useGet_fetch, fetchQuery.
  destruct (useGet_queryFn p cf gf s w) as [res w''] eqn:E. simpl in Hres.
  subst res. rewrite (retry_resolved 3 _ _ E).
  cbn [queries with_queries]. rewrite find_query_settle_in.
  destruct (find_query _ (queries w'')); reflexivity.
Qed.

(** X4. A page answered as [{data: rows, meta: {totalRowCount: n}}]
    is shown as served: the grid gets [rows], its row count is [n]
    whatever the number of rows, and no banner is raised. *)
Theorem table_shows_the_page (t : TableState) prev (w : World) r rest rows n :
  server w = Responded r :: rest ->
  json_body r = Some (JObj [ ("data", JArr rows);
                             ("meta", JObj [("totalRowCount", JNum n)]) ]) ->
  table_shows t prev (fetch_with t w) = (Resolved (JArr rows, JNum n), false).
Proof.
  intros Hs Hb. unfold table_shows, fetch_with.
  now rewrite (useGet_result_after_answer _ _ _ _ prev w Hs Hb).
Qed.

Lemma table_shows_the_page_witness :
  table_shows Scenario.first_render None
    (fetch_with Scenario.first_render
       (Scenario.products_world
          [Scenario.answer_ok (Scenario.page_of [Scenario.bolt] 250)]))
  = (Resolved (JArr [Scenario.bolt], JNum 250), false).
Proof.
  exact (table_shows_the_page Scenario.first_render None
           (Scenario.products_world
              [Scenario.answer_ok (Scenario.page_of [Scenario.bolt] 250)])
           eq_refl eq_refl).
Defined.

(** X5. An answer whose JSON body is an object without [data] and
    [meta], whatever its status: the grid is emptied, its row count
    becomes 0 and no banner is raised, whatever was shown before. *)
Theorem table_emptied_by_error_object (t : TableState) prev (w : World)
    r rest fields :
  server w = Responded r :: rest ->
  json_body r = Some (JObj fields) ->
  lookup "data" fields = None ->
  lookup "meta" fields = None ->
  table_shows t prev (fetch_with t w) = (Resolved (JArr [], JNum 0), false).
Proof.
  intros Hs Hb Hd Hm. unfold table_shows, fetch_with.
  rewrite (useGet_result_after_answer _ _ _ _ prev w Hs Hb).
  unfold table_view, data, getProp. now rewrite Hd, Hm.
Qed.

Lemma table_emptied_by_error_object_witness :
  let w1 :=
    fetch_with Scenario.first_render
      (Scenario.products_world
         [ Scenario.answer_ok (Scenario.page_of [Scenario.bolt] 1);
           Scenario.answer_status_500 Scenario.server_error_body ]) in
  fst (table_shows Scenario.first_render None w1)
  = Resolved (JArr [Scenario.bolt], JNum 1)
  /\ table_shows Scenario.first_render None (fetch_with Scenario.first_render w1)
     = (Resolved (JArr [], JNum 0), false).
Proof.
  intros w1. split; [vm_compute; reflexivity|].
  apply (table_emptied_by_error_object Scenario.first_render None w1
           (r := {| ok := false; json_body := Some Scenario.server_error_body |})
           (rest := []) (fields := [("error", JStr "Internal Server Error")]));
    vm_compute; reflexivity.
Defined.

(** X29. The network fails, or the body is not JSON, for the fetch and
    for each of its three retries: the query function has then been run
    four times, with four identical requests, and the hook reports
    [isError] with the data the query had (none for a key fetched for the
    first time). *)
Theorem useGet_fetch_rejected p cf gf s (w : World) prev :
  forallb answer_fails (List.firstn 4 (server w)) = true ->
  let w' := useGet_fetch p cf gf s w in
  useGet_result p cf gf s prev w'
  = Some {| data := match find_query (hashKey (useGet_queryKey p cf gf s))
                            (queries w) with
                    | Some q => q_data q
                    | None => None
                    end;
            isError := true |}
  /\ sent w'
     = (sent w
        ++ List.repeat {| req_method := GET;
                          req_url := set_fetch_params p cf gf s (url w);
                          req_headers := []; req_body := None |} 4)%list.
Proof.
  intros Hfail w'.
  destruct (useGet_retry_rejected p cf gf s 3 w Hfail) as ((msg & Hmsg) & Hsent).
  destruct (useGet_retry p cf gf s 3 w) as (_ & Hq & _).
  cbv zeta in Hsent, Hq.
  unfold w', useGet_result, useGet_fetch, fetchQuery.
  destruct (retry 3 (useGet_queryFn p cf gf s) w) as [r w1].
  cbn [fst snd] in *. subst r. cbn [queries sent with_queries].
  split; [|exact Hsent].
  rewrite Hq, find_query_settle_in.
  destruct (find_query _ (queries w)) as [q|]; cbn [settle new_query];
    unfold observe; cbn [q_data q_status]; [|reflexivity].
  now destruct (q_data q).
Qed.

(** Page one is on screen; the refetch and one retry fail on the
    network, the other two retries are answered with bodies that are not
    JSON: the page stays and the error flag is raised. *)
Lemma useGet_fetch_rejected_witness :
  let w1 :=
    useGet_fetch Scenario.first_page Scenario.no_filters (Some "")
      Scenario.by_product_id
      (Scenario.products_world
         [ Scenario.answer_ok (Scenario.page_of [Scenario.bolt] 1);
           NetworkError;
           Responded {| ok := true; json_body := None |};
           NetworkError;
           Responded {| ok := false; json_body := None |} ]) in
  let w2 :=
    useGet_fetch Scenario.first_page Scenario.no_filters (Some "")
      Scenario.by_product_id w1 in
  useGet_result Scenario.first_page Scenario.no_filters (Some "")
    Scenario.by_product_id None w2
  = Some {| data := Some (Scenario.page_of [Scenario.bolt] 1);
            isError := true |}
  /\ List.length (sent w2) = 5%nat.
Proof.
  intros w1 w2.
  assert (Hfail : forallb answer_fails (List.firstn 4 (server w1)) = true)
    by (vm_compute; reflexivity).
  destruct (@useGet_fetch_rejected Scenario.first_page Scenario.no_filters
              (Some "") Scenario.by_product_id w1 None Hfail)
    as (Hres & Hsent).
  split.
  - etransitivity; [exact Hres|]. vm_compute. reflexivity.
  - unfold w2. rewrite Hsent. vm_compute. reflexivity.
Defined.

End UrlObject.

(** ** Saving and deleting a product *)

(** Reading a field of the world after a run of state changes. *)
Ltac world :=
  cbn [fst snd negb server sent url queries validationErrors creatingRow
       editingRow callbacks with_network with_url with_queries
       with_validationErrors with_creatingRow with_editingRow with_callback].

Ltac run_async :=
  unfold mutateAsync, TProducts.check_ok, Response_json,
    TProducts.onSuccess_invalidate, bind, effect, fetch, ret, throw.

Section ProductRows.

Import TProducts.

Variable values : Product.
Hypothesis name_filled : JS.truthy_string (product_name values) = true.
Hypothesis supplier_filled : JS.truthy_string (supplier values) = true.
Hypothesis item_number_filled : JS.truthy_string (item_number values) = true.

Lemma accepted : some_error (validateProduct values) = false.
Proof.
  rewrite some_error_validateProduct.
  now rewrite name_filled, supplier_filled, item_number_filled.
Qed.

(** X6. A product row with its three fields filled is sent: whatever
    the server will answer, creating it issues exactly one request, a
    POST of the row as JSON to the products endpoint, after the
    validation messages on screen have been cleared. *)
Theorem valid_product_is_posted_once (w : World) :
  let w' := snd (handleCreateProduct values w) in
  sent w' = (sent w ++ [RowActions.create_request values])%list
  /\ validationErrors w' = []
  /\ server w' = List.tl (server w).
Proof.
  unfold handleCreateProduct. rewrite accepted.
  unfold createProduct. run_async. world.
  destruct (server w) as [|[|r] rest]; world; try (repeat split; reflexivity).
  destruct (ok r); world; try (repeat split; reflexivity).
  destruct (json_body r); world; repeat split; reflexivity.
Qed.

(** X7. When the server answers the POST with a 2xx status and a JSON
    body, the handler succeeds: the row being created is closed and the
    queries under the key [products] are invalidated. *)
Theorem created_product_closes_the_row (w : World) r rest created :
  server w = Responded r :: rest ->
  ok r = true ->
  json_body r = Some created ->
  let out := handleCreateProduct values w in
  fst out = Resolved tt
  /\ creatingRow (snd out) = false
  /\ queries (snd out) = invalidateQueries [JStr "products"] (queries w)
  /\ validationErrors (snd out) = [].
Proof.
  intros Hs Hok Hb. unfold handleCreateProduct. rewrite accepted.
  unfold createProduct. run_async. world.
  rewrite Hs. world. rewrite Hok. world. rewrite Hb. world.
  repeat split; reflexivity.
Qed.

(** X8. When the server refuses the POST with a status outside
    200..299, or the network fails, the handler fails: the row being
    created stays open and the cache is left alone, so the user can try
    again or cancel. *)
Theorem refused_product_keeps_the_row_open (w : World) :
  (server w = []
   \/ (exists rest, server w = NetworkError :: rest)
   \/ exists r rest, server w = Responded r :: rest /\ ok r = false) ->
  let out := handleCreateProduct values w in
  (exists msg, fst out = Rejected msg)
  /\ creatingRow (snd out) = creatingRow w
  /\ queries (snd out) = queries w.
Proof.
  intros Hs. unfold handleCreateProduct. rewrite accepted.
  unfold createProduct. run_async. world.
  destruct Hs as [Hs|[(rest & Hs)|(r & rest & Hs & Hok)]]; rewrite Hs; world.
  - split; [eexists; reflexivity | split; reflexivity].
  - split; [eexists; reflexivity | split; reflexivity].
  - rewrite Hok. world. split; [eexists; reflexivity | split; reflexivity].
Qed.

End ProductRows.

Lemma valid_product_is_posted_once_witness :
  List.map req_method
    (sent (snd (TProducts.handleCreateProduct Scenario.nut
                  (Scenario.products_world [])))) = [POST].
Proof.
  rewrite (proj1 (valid_product_is_posted_once Scenario.nut
                    eq_refl eq_refl eq_refl (Scenario.products_world []))).
  reflexivity.
Defined.

Lemma created_product_closes_the_row_witness :
  let w := Scenario.products_world [Scenario.answer_ok Scenario.bolt] in
  fst (TProducts.handleCreateProduct Scenario.nut (with_creatingRow true w))
  = Resolved tt
  /\ creatingRow (snd (TProducts.handleCreateProduct Scenario.nut
                         (with_creatingRow true w))) = false.
Proof.
  intros w.
  destruct (created_product_closes_the_row Scenario.nut eq_refl eq_refl eq_refl
              (with_creatingRow true w) eq_refl eq_refl eq_refl)
    as (H1 & H2 & _).
  split; [exact H1|exact H2].
Defined.

Lemma refused_product_keeps_the_row_open_witness :
  let w :=
    with_creatingRow true
      (Scenario.products_world
         [Scenario.answer_status_500 Scenario.server_error_body]) in
  fst (TProducts.handleCreateProduct Scenario.nut w)
  = Rejected "Network response was not ok"
  /\ creatingRow (snd (TProducts.handleCreateProduct Scenario.nut w)) = true.
Proof.
  intros w. split; [vm_compute; reflexivity|].
  refine (proj1 (proj2 (refused_product_keeps_the_row_open Scenario.nut
                          eq_refl eq_refl eq_refl w _))).
  right; right. eexists _, _. split; reflexivity.
Defined.

(** X9. A product is deleted only on confirmation: declined, nothing
    at all happens; confirmed, exactly one request leaves, a DELETE
    without body to the endpoint of that product id. *)
Theorem delete_needs_confirmation (product_id : float) (w : World) :
  RowActions.openDeleteConfirmModal false product_id w = w
  /\ sent (RowActions.openDeleteConfirmModal true product_id w)
     = (sent w
        ++ [ {| req_method := DELETE;
                req_url := new_URL (TProducts.API_URL ++ "/"
                                    ++ JS.Number_toString product_id);
                req_headers := []; req_body := None |} ])%list.
Proof.
  split; [reflexivity|].
  unfold RowActions.openDeleteConfirmModal, TProducts.deleteProduct.
  run_async. world.
  destruct (server w) as [|[|r] rest]; world; try reflexivity.
  destruct (ok r); world; try reflexivity.
  destruct (json_body r); world; reflexivity.
Qed.

(** ** Lookup cells *)

Section WarehouseCell.

Import RowActions.

(** X10. The warehouse cell shows the name of the first warehouse of
    the lookup list whose id is the cell's value. *)
Theorem warehouse_cell_first_match (pre post : list Warehouse) (w : Warehouse)
    (v : float) :
  Forall (fun x => PrimFloat.eqb (warehouse_id x) v = false) pre ->
  PrimFloat.eqb (warehouse_id w) v = true ->
  warehouse_cell (pre ++ w :: post) v = warehouse_name w.
Proof.
  intros Hpre Hw. unfold warehouse_cell.
  induction Hpre as [|x pre Hx _ IH]; simpl.
  - now rewrite Hw.
  - now rewrite Hx.
Qed.

Lemma warehouse_cell_first_match_witness :
  warehouse_cell [Scenario.central; Scenario.north; Scenario.north_again] 4
  = "North".
Proof.
  apply (@warehouse_cell_first_match [Scenario.central] [Scenario.north_again]
           Scenario.north).
  - constructor; [reflexivity|constructor].
  - reflexivity.
Defined.

(** X11. When no warehouse of the lookup list has the cell's value as
    id, an empty list included, the cell shows [Unknown]. *)
Theorem warehouse_cell_unknown (warehouses : list Warehouse) (v : float) :
  Forall (fun x => PrimFloat.eqb (warehouse_id x) v = false) warehouses ->
  warehouse_cell warehouses v = "Unknown".
Proof.
  intros H. unfold warehouse_cell.
  induction H as [|x l Hx _ IH]; simpl; [reflexivity|].
  now rewrite Hx.
Qed.

Lemma warehouse_cell_unknown_witness :
  warehouse_cell [Scenario.central; Scenario.north] 9 = "Unknown".
Proof.
  apply warehouse_cell_unknown.
  repeat constructor.
Defined.

End WarehouseCell.

(** ** Validation of the other rows *)

(** X12. A products-income row is refused exactly when one of its
    five required fields is missing, empty or zero; the two-decimal check
    on the total never decides. *)
Theorem income_row_refused_iff (v : TProductsIncome.ProductsIncome) :
  TProducts.some_error (TProductsIncome.validateProductsIncome v)
  = negb (JS.truthy_opt_number (TProductsIncome.income_note_id v)
          && JS.truthy_opt_number (TProductsIncome.warehouse_id v)
          && JS.truthy_string (TProductsIncome.contractor v)
          && JS.truthy_opt_number (TProductsIncome.total v)
          && JS.truthy_string (TProductsIncome.date v)).
Proof.
  unfold TProductsIncome.validateProductsIncome, TProductsIncome.set_if,
    TProducts.some_error.
  destruct (TProductsIncome.total v) as [t|]; cbn [JS.truthy_opt_number];
    destruct (JS.truthy_opt_number (TProductsIncome.income_note_id v));
    destruct (JS.truthy_opt_number (TProductsIncome.warehouse_id v));
    destruct (JS.truthy_string (TProductsIncome.contractor v));
    destruct (JS.truthy_string (TProductsIncome.date v));
    try (destruct (JS.truthy_number t);
         try destruct (JS.isNaN t || negb (JS.Number_isInteger (t * 100)))%bool);
    reflexivity.
Qed.

Lemma test_digits_nonempty (n : nat) (s : string) :
  Validation.test_digits (S n) s = true -> JS.truthy_string (Some s) = true.
Proof.
  unfold Validation.test_digits. destruct s; [discriminate|reflexivity].
Qed.

(** X13. An employee row is accepted exactly when its INN is twelve
    digits, warehouse, position and name are filled, and the phone number
    is absent, empty or eleven digits. *)
Theorem employee_accepted_iff (e : Validation.Employee) :
  TProducts.some_error (Validation.validateEmployee e) = false
  <-> (exists s, Validation.inn e = Some s /\ Validation.test_digits 12 s = true)
      /\ JS.truthy_opt_number (Validation.warehouse_id e) = true
      /\ JS.truthy_opt_number (Validation.position_id e) = true
      /\ JS.truthy_string (Validation.employee_name e) = true
      /\ (JS.truthy_string (Validation.phone_number e) = false
          \/ exists s, Validation.phone_number e = Some s
                       /\ Validation.test_digits 11 s = true).
Proof.
  assert (E : TProducts.some_error (Validation.validateEmployee e)
              = (Validation.inn_refused e
                 || negb (JS.truthy_opt_number (Validation.warehouse_id e))
                 || negb (JS.truthy_opt_number (Validation.position_id e))
                 || negb (JS.truthy_string (Validation.employee_name e))
                 || Validation.phone_refused e)%bool).
  { unfold Validation.validateEmployee, TProductsIncome.set_if, TProducts.some_error.
    destruct (Validation.inn_refused e);
      destruct (JS.truthy_opt_number (Validation.warehouse_id e));
      destruct (JS.truthy_opt_number (Validation.position_id e));
      destruct (JS.truthy_string (Validation.employee_name e));
      destruct (Validation.phone_refused e); reflexivity. }
  rewrite E. clear E.
  unfold Validation.inn_refused, Validation.phone_refused.
  split.
  - intros H.
    repeat (apply Bool.orb_false_iff in H; destruct H as [H ?]).
    repeat match goal with
           | X : negb _ = false |- _ => apply Bool.negb_false_iff in X
           end.
    repeat split; try assumption.
    + destruct (Validation.inn e) as [s|]; [|discriminate].
      apply Bool.orb_false_iff in H as [_ H].
      apply Bool.negb_false_iff in H. eauto.
    + destruct (Validation.phone_number e) as [s|]; [|left; reflexivity].
      destruct (JS.truthy_string (Some s)); [|left; reflexivity].
      right. exists s. split; [reflexivity|].
      now apply Bool.negb_false_iff.
  - intros ((s & Hs & Hd) & Hw & Hp & Hn & Hph).
    rewrite Hs, Hd, Hw, Hp, Hn, (test_digits_nonempty _ _ Hd).
    cbn [negb orb].
    destruct Hph as [Hph|(s' & Hs' & Hd')].
    + destruct (Validation.phone_number e) as [s'|]; [|reflexivity].
      now rewrite Hph.
    + now rewrite Hs', Hd', Bool.andb_false_r.
Qed.

(** X14. A position row is refused exactly when its name is empty:
    whatever the salary, its check never decides. *)
Theorem position_refused_iff (p : Validation.Position) :
  TProducts.some_error (Validation.validatePosition p)
  = negb (JS.truthy_string (Validation.position_name p)).
Proof.
  unfold Validation.validatePosition, TProductsIncome.set_if, TProducts.some_error.
  destruct (JS.truthy_string (Validation.position_name p));
    destruct (Validation.salary p) as [v|];
    try destruct (JS.isNaN v || negb (JS.Number_isInteger (v * 100)))%bool;
    reflexivity.
Qed.

(** ** The lines of the outcome form *)

Section FormLines.

Import NoteForms OutcomeFormState.

Lemma filter_index_keeps_later {A} (l : list A) (a b : nat) :
  (a < b)%nat ->
  filter_index (fun j => negb (Nat.eqb j a)) b l = l.
Proof.
  revert b. induction l as [|y l IH]; intros b Hab; [reflexivity|].
  cbn [filter_index].
  destruct (Nat.eqb_spec b a); [lia|]. cbn [negb].
  f_equal. apply IH. lia.
Qed.

Lemma filter_index_firstn_skipn {A} (l : list A) (index i : nat) :
  filter_index (fun j => negb (Nat.eqb j (i + index))) i l
  = (firstn index l ++ skipn (S index) l)%list.
Proof.
  revert index i. induction l as [|x l IH]; intros index i.
  - now destruct index.
  - destruct index as [|index]; cbn [filter_index firstn skipn app].
    + rewrite Nat.add_0_r, Nat.eqb_refl. cbn [negb].
      apply filter_index_keeps_later. lia.
    + destruct (Nat.eqb_spec i (i + S index)); [lia|]. cbn [negb].
      f_equal. replace (i + S index)%nat with (S i + index)%nat by lia.
      apply IH.
Qed.

(** X15. Removing the line at [index] leaves the lines before it and
    the lines after it, in order; an index past the end removes nothing. *)
Theorem removeOutcomeNote_lines (index : nat) (st : Form) :
  outcomeNotes (removeOutcomeNote index st)
  = (firstn index (outcomeNotes st) ++ skipn (S index) (outcomeNotes st))%list
  /\ productsOutcome (removeOutcomeNote index st) = productsOutcome st
  /\ (if Nat.leb (List.length (outcomeNotes st)) index
      then removeOutcomeNote index st = st
      else S (List.length (outcomeNotes (removeOutcomeNote index st)))
           = List.length (outcomeNotes st)).
Proof.
  assert (E : outcomeNotes (removeOutcomeNote index st)
              = (firstn index (outcomeNotes st)
                 ++ skipn (S index) (outcomeNotes st))%list)
    by apply (filter_index_firstn_skipn (outcomeNotes st) index 0).
  split; [exact E|]. split; [reflexivity|].
  destruct (Nat.leb_spec (List.length (outcomeNotes st)) index) as [Hle|Hlt].
  - assert (E' : outcomeNotes (removeOutcomeNote index st) = outcomeNotes st)
      by (rewrite E, firstn_all2, skipn_all2 by lia; apply app_nil_r).
    destruct st as [h notes]. unfold removeOutcomeNote in *.
    cbn [outcomeNotes productsOutcome] in *. now f_equal.
  - rewrite E, length_app, length_firstn, length_skipn. lia.
Qed.

(** X16. Adding a line and removing the last line again gives back
    the form as it was. *)
Theorem remove_added_line (st : Form) :
  removeOutcomeNote (List.length (outcomeNotes st)) (addOutcomeNote st) = st.
Proof.
  destruct st as [h notes]. unfold removeOutcomeNote, addOutcomeNote. cbn.
  f_equal.
  rewrite (filter_index_firstn_skipn _ (List.length notes) 0).
  rewrite firstn_app, Nat.sub_diag, firstn_all, skipn_all2
    by (rewrite length_app; simpl; lia).
  cbn. now rewrite !app_nil_r.
Qed.

Section WithConversions.

Variable parseFloat : string -> float.

Lemma map_index_nth {A B} (f : A -> nat -> B) (l : list A) (i j : nat) :
  nth_error (map_index f i l) j
  = option_map (fun x => f x (i + j)%nat) (nth_error l j).
Proof.
  revert i j. induction l as [|x l IH]; intros i j.
  - now destruct j.
  - destruct j as [|j]; cbn.
    + now rewrite Nat.add_0_r.
    + rewrite IH. now replace (S i + j)%nat with (i + S j)%nat by lia.
Qed.

Lemma map_index_length {A B} (f : A -> nat -> B) (l : list A) (i : nat) :
  List.length (map_index f i l) = List.length l.
Proof. revert i. induction l; intros i; cbn; auto. Qed.

Lemma map_index_map {A B C} (g : B -> C) (f : A -> nat -> B) (l : list A) i :
  List.map g (map_index f i l) = map_index (fun x j => g (f x j)) i l.
Proof. revert i. induction l as [|x l IH]; intros i; cbn; [|rewrite IH]; auto. Qed.

(** X17. Typing into an input of the line at [index] changes that
    line only: the number of lines, every other line, the header and the
    note number of every line stay as they were. *)
Theorem handleOutcomeNoteChange_one_line (index : nat) (name : LineField)
    (value : string) (st : Form) :
  let st' := handleOutcomeNoteChange parseFloat index name value st in
  (forall j,
     nth_error (outcomeNotes st') j
     = if Nat.eqb j index
       then option_map (change_line parseFloat name value)
                       (nth_error (outcomeNotes st) j)
       else nth_error (outcomeNotes st) j)
  /\ List.length (outcomeNotes st') = List.length (outcomeNotes st)
  /\ productsOutcome st' = productsOutcome st
  /\ List.map outcome_note_id (outcomeNotes st')
     = List.map outcome_note_id (outcomeNotes st).
Proof.
  unfold handleOutcomeNoteChange; cbn. repeat split.
  - intros j. rewrite map_index_nth. cbn.
    destruct (Nat.eqb j index); destruct (nth_error (outcomeNotes st) j);
      reflexivity.
  - apply map_index_length.
  - rewrite map_index_map.
    generalize 0%nat as i. induction (outcomeNotes st) as [|x l IH]; intros i;
      cbn; [reflexivity|].
    rewrite IH. destruct (Nat.eqb i index); [destruct name|]; reflexivity.
Qed.

End WithConversions.

Lemma handleSubmit_sent (st : Form) (w : World) :
  sent (handleSubmit st w)
  = sent (snd (createProductsOutcome_mutationFn (productsOutcome st)
                 (outcomeNotes st) w)).
Proof.
  unfold handleSubmit, handleSubmit_outcome, mutateAsync, bind,
    createProductsOutcome_onSuccess, TProducts.onSuccess_invalidate, effect, ret.
  destruct (createProductsOutcome_mutationFn _ _ w) as [[a|msg] w'];
    reflexivity.
Qed.

(** X18. Once the header is created, the lines are posted as many as
    the form holds and with the fields the form holds, except that each
    carries the note number the header has at the time of submitting,
    whatever number the line was added with. *)
Theorem posted_lines_carry_header_number (st : Form) (w : World)
    r1 created answer2 rest :
  server w = Responded r1 :: answer2 :: rest ->
  ok r1 = true ->
  json_body r1 = Some created ->
  exists posted,
    sent (handleSubmit st w)
    = (sent w
       ++ [ outcome_header_request (productsOutcome st);
            {| req_method := POST;
               req_url := new_URL "http://localhost:5000/api/outcome_notes";
               req_headers := TProducts.json_headers;
               req_body := Some (stringify
                                   (JArr (List.map json_of_OutcomeNote posted))) |} ])%list
    /\ List.length posted = List.length (outcomeNotes st)
    /\ Forall (fun n => outcome_note_id n = note_id (productsOutcome st)) posted
    /\ List.map (with_outcome_note_id 0) posted
       = List.map (with_outcome_note_id 0) (outcomeNotes st).
Proof.
  intros Hs Hok Hb.
  exists (List.map (with_outcome_note_id (note_id (productsOutcome st)))
                   (outcomeNotes st)).
  rewrite handleSubmit_sent.
  destruct (outcome_two_requests (productsOutcome st) (outcomeNotes st) w
              Hs Hok Hb) as (Hsent & _).
  split; [exact Hsent|]. split; [apply length_map|]. split.
  - apply Forall_forall. intros n Hn.
    apply in_map_iff in Hn as (n0 & <- & _). reflexivity.
  - rewrite List.map_map. reflexivity.
Qed.

Lemma posted_lines_carry_header_number_witness :
  let w :=
    Scenario.outcome_world
      [ Scenario.answer_ok (Scenario.created_header "outcome_note_id");
        Scenario.answer_ok (JArr []) ] in
  List.map outcome_note_id (outcomeNotes Scenario.form_with_stale_line)
  = [0%float]
  /\ exists posted,
       List.map req_body (sent (handleSubmit Scenario.form_with_stale_line w))
       = [ Some (stringify (json_of_header "outcome_note_id" Scenario.header_5));
           Some (stringify (JArr (List.map json_of_OutcomeNote posted))) ]
       /\ List.map outcome_note_id posted = [5%float].
Proof.
  intros w. split; [reflexivity|].
  destruct (posted_lines_carry_header_number Scenario.form_with_stale_line w
              (r1 := {| ok := true;
                        json_body := Some (Scenario.created_header "outcome_note_id") |})
              (answer2 := Scenario.answer_ok (JArr [])) (rest := [])
              eq_refl eq_refl eq_refl)
    as (posted & Hsent & Hlen & Hall & _).
  exists posted. split.
  - rewrite Hsent. reflexivity.
  - destruct posted as [|n [|n' posted]]; try discriminate Hlen.
    inversion Hall as [|? ? Hn _]. cbn. now rewrite Hn.
Defined.

(** X19. The form reports success, invalidating the [productsOutcome]
    queries and calling [onSuccess] then [onClose], exactly when header
    and lines are both created; in every other case no callback runs, the
    cache is left alone and the form stays open. *)
Theorem form_closes_iff_both_created (st : Form) (w : World) :
  let w' := handleSubmit st w in
  callbacks w'
  = (callbacks w
     ++ if both_created (server w) then ["onSuccess"; "onClose"] else [])%list
  /\ queries w'
     = if both_created (server w)
       then invalidateQueries [JStr "productsOutcome"] (queries w)
       else queries w.
Proof.
  unfold handleSubmit, handleSubmit_outcome, createProductsOutcome_mutationFn,
    createProductsOutcome_onSuccess, both_created.
  run_async. world.
  destruct (server w) as [|[|r1] answers]; world;
    try (rewrite app_nil_r; split; reflexivity).
  destruct (ok r1); world.
  2:{ destruct answers as [|[|r2] ?]; rewrite app_nil_r; split; reflexivity. }
  destruct (json_body r1); world.
  2:{ destruct answers as [|[|r2] ?]; rewrite ?Bool.andb_false_r, app_nil_r;
        split; reflexivity. }
  destruct answers as [|[|r2] rest]; world;
    try (rewrite app_nil_r; split; reflexivity).
  destruct (ok r2); world; cbn [andb].
  - rewrite <- app_assoc. split; reflexivity.
  - rewrite app_nil_r. split; reflexivity.
Qed.

End FormLines.

(** ** The report table *)

Section ReportTable.

Import IntegratedReport ReportRequests.

Lemma totalAmount_of_missing (rows : list ReportData) :
  Forall (fun r => total r = None) rows ->
  List.fold_left (fun sum item => (sum + total_or_zero item)%float) rows 0%float
  = 0%float.
Proof.
  intros H. induction H as [|r rows Hr _ IH]; [reflexivity|].
  cbn [List.fold_left]. unfold total_or_zero at 2. rewrite Hr.
  exact IH.
Qed.

(** X21. Rows whose key [total] is absent: each of their cells in
    the column [total] reads [NaN₽], while the grand total counts them as
    0, so a report made of such rows totals [0.00₽]; a cell whose value
    is [null] reads [0.00₽]. *)
Theorem rows_without_total (rows : list ReportData) :
  Forall (fun r => total r = None) rows ->
  Forall (fun r => total_value r = value_undefined
                   /\ total_cell r = "NaN₽") rows
  /\ grand_total_text rows = "0.00₽"
  /\ total_cell_of value_null = "0.00₽".
Proof.
  intros H. split; [|split].
  - apply Forall_forall. intros r Hr.
    rewrite Forall_forall in H.
    unfold total_cell, total_value. now rewrite (H r Hr).
  - unfold grand_total_text, totalAmount.
    now rewrite (totalAmount_of_missing H).
  - vm_compute. reflexivity.
Qed.

Lemma rows_without_total_witness :
  let rows := [Scenario.report_row None; Scenario.report_row None] in
  List.map total_cell rows = ["NaN₽"; "NaN₽"]
  /\ grand_total_line false false (Scenario.revenue_report rows)
     = Some "Итого: 0.00₽".
Proof.
  intros rows.
  assert (H : Forall (fun r => total r = None) rows)
    by (repeat constructor).
  destruct (rows_without_total H) as (_ & Htotal & _).
  split; [reflexivity|].
  change (grand_total_line false false (Scenario.revenue_report rows))
    with (Some ("Итого: " ++ grand_total_text rows)).
  now rewrite Htotal.
Defined.

(** X22. A cell of the column [total] whose value is a finite number
    below [10^21] in magnitude shows it with exactly two decimals,
    followed by the rouble sign. *)
Theorem total_cell_two_decimals (item : ReportData) (t : float) :
  total item = Some t ->
  JS.finite_below_1e21 t = true ->
  total_cell item = JS.toFixed2 t ++ "₽"
  /\ JS.has_two_decimals (JS.toFixed2 t) = true.
Proof.
  intros Ht Hfin. unfold total_cell, total_value. rewrite Ht.
  split; [reflexivity|now apply toFixed2_two_decimals].
Qed.

Lemma total_cell_two_decimals_witness :
  total_cell (Scenario.report_row (Some 49.5%float)) = "49.50₽".
Proof.
  rewrite (proj1 (total_cell_two_decimals
                    (Scenario.report_row (Some 49.5%float)) eq_refl eq_refl)).
  vm_compute. reflexivity.
Defined.

Section Generating.

Variable as_rows : json -> list ReportData.


End Generating.

End ReportTable.

(** A revenue report is on screen and the next one is refused with
    status 500: the rows stay. *)
Example refused_report_keeps_rows :
  let st := Scenario.revenue_report [Scenario.report_row (Some 50%float)] in
  let out :=
    ReportRequests.handleGenerateReport Scenario.rows_of_json st
      (Scenario.products_world
         [Scenario.answer_status_500 Scenario.server_error_body]) in
  fst out = st
  /\ List.map (fun rq => href (req_url rq)) (sent (snd out))
     = ["http://localhost:5000/api/revenue-report"].
Proof. vm_compute. split; reflexivity. Qed.

(** ** The application shell *)

Section Shell.

Import App.

(** X24. The selected tab survives a reload: after any selection of a
    non-empty value the storage holds that value, and mounting the
    application on that storage selects it again; on a storage without
    the key, or with an empty value, the first tab is selected. *)
Theorem selection_survives_reload (option : string) (st : AppState) :
  JS.truthy_string (Some option) = true ->
  lookup "selectedOption" (localStorage (handleSelect option st)) = Some option
  /\ selectedOption (mount (localStorage (handleSelect option st))) = option
  /\ localStorage (mount (localStorage (handleSelect option st)))
     = localStorage (handleSelect option st).
Proof.
  intros Hne.
  assert (Hl : lookup "selectedOption" (localStorage (handleSelect option st))
               = Some option).
  { unfold handleSelect. cbn [localStorage]. rewrite lookup_set.
    now rewrite String.eqb_refl. }
  assert (Hs : stored_option (localStorage (handleSelect option st)) = option).
  { unfold stored_option. now rewrite Hl, Hne. }
  split; [exact Hl|]. split.
  - unfold mount. cbn [selectedOption]. exact Hs.
  - unfold mount. cbn [localStorage]. rewrite Hs.
    unfold handleSelect. cbn [localStorage].
    generalize (localStorage st) as d. intros d.
    induction d as [|[k v] d IH]; cbn [set].
    + now rewrite String.eqb_refl.
    + destruct (String.eqb_spec k "selectedOption") as [->|Hk].
      * cbn [set]. rewrite String.eqb_refl. f_equal.
        clear IH. induction d as [|[k' v'] d IH]; cbn [remove]; [reflexivity|].
        destruct (String.eqb_spec k' "selectedOption"); [exact IH|].
        cbn [remove]. destruct (String.eqb_spec k' "selectedOption");
          [contradiction|]. now rewrite IH.
      * cbn [set]. destruct (String.eqb_spec k "selectedOption");
          [contradiction|]. now rewrite IH.
Qed.

Lemma selection_survives_reload_witness :
  selectedOption (mount (localStorage (handleSelect "option4" (mount []))))
  = "option4"
  /\ selectedOption (mount []) = "option1"
  /\ selectedOption (mount [("selectedOption", "")]) = "option1".
Proof.
  split; [|split; reflexivity].
  exact (proj1 (proj2 (selection_survives_reload "option4" (mount []) eq_refl))).
Defined.

(** X25. Every option of the dropdown has a screen of its own, the
    nine screens being all different, and any other stored value shows
    the warehouses table. *)
Theorem every_option_has_its_screen (selected : string) :
  NoDup (List.map (fun o => renderComponent (fst o)) options)
  /\ List.length options = 9%nat
  /\ (In selected (List.map fst options)
      \/ renderComponent selected = Screen_WarehousesTable).
Proof.
  split; [|split; [reflexivity|]].
  - cbn. repeat (constructor; [cbn; intuition discriminate|]). constructor.
  - unfold renderComponent.
    repeat match goal with
           | |- context [String.eqb selected ?s] =>
               destruct (String.eqb_spec selected s) as [->|?];
               [left; cbn; auto 12|]
           end.
    right. reflexivity.
Qed.

End Shell.

(** ** Errors of the income-note mutation *)

Section IncomeNoteErrors.

Import IncomeNotes.

Variable newIncomeNote : json.

(** X26. When the server refuses an income note with a status outside
    200..299 and a JSON object carrying a non-empty string [message],
    the mutation fails with that message and the banner reads
    [Failed to create income note: <message>]. *)
Theorem server_message_is_relayed (w : World) r rest fields (message : string) :
  server w = Responded r :: rest ->
  ok r = false ->
  json_body r = Some (JObj fields) ->
  lookup "message" fields = Some (JStr message) ->
  message <> "" ->
  fst (createIncomeNote_mutationFn newIncomeNote w) = Rejected message
  /\ error_banner (fst (createIncomeNote_mutationFn newIncomeNote w))
     = Some ("Failed to create income note: " ++ message).
Proof.
  intros Hs Hok Hb Hm Hne.
  assert (E : fst (createIncomeNote_mutationFn newIncomeNote w) = Rejected message).
  { unfold createIncomeNote_mutationFn, throw_server_error.
    unfold Response_json, bind, fetch, ret, throw. world.
    rewrite Hs. world. rewrite Hok, Hb. world.
    unfold getProp. rewrite Hm. unfold truthy, JS.truthy_string.
    destruct (String.eqb_spec message ""); [contradiction|reflexivity]. }
  split; [exact E|]. now rewrite E.
Qed.

(** X27. When the refusal is a JSON object without [message], or with
    an empty, [null], [false] or zero one, the mutation fails with the
    generic message [Failed to create income note]. *)
Theorem generic_message_without_server_message (w : World) r rest fields :
  server w = Responded r :: rest ->
  ok r = false ->
  json_body r = Some (JObj fields) ->
  match lookup "message" fields with
  | Some m => truthy m = false
  | None => True
  end ->
  fst (createIncomeNote_mutationFn newIncomeNote w)
  = Rejected "Failed to create income note".
Proof.
  intros Hs Hok Hb Hm.
  unfold createIncomeNote_mutationFn, throw_server_error.
  unfold Response_json, bind, fetch, ret, throw. world.
  rewrite Hs. world. rewrite Hok, Hb. world.
  unfold getProp. destruct (lookup "message" fields) as [m|]; [|reflexivity].
  now rewrite Hm.
Qed.

End IncomeNoteErrors.

Lemma server_message_is_relayed_witness :
  IncomeNotes.error_banner
    (fst (IncomeNotes.createIncomeNote_mutationFn Scenario.a_note
            (Scenario.products_world
               [Responded {| ok := false;
                             json_body := Some (JObj [("message", JStr "No such product")]) |}])))
  = Some "Failed to create income note: No such product".
Proof.
  refine (proj2 (server_message_is_relayed Scenario.a_note
                   (Scenario.products_world _)
                   (r := {| ok := false;
                            json_body := Some (JObj [("message", JStr "No such product")]) |})
                   (rest := [])
                   (fields := [("message", JStr "No such product")])
                   eq_refl eq_refl eq_refl eq_refl _)).
  discriminate.
Defined.

Lemma generic_message_without_server_message_witness :
  fst (IncomeNotes.createIncomeNote_mutationFn Scenario.a_note
         (Scenario.products_world
            [Scenario.answer_status_500 Scenario.server_error_body]))
  = Rejected "Failed to create income note".
Proof.
  apply (generic_message_without_server_message Scenario.a_note
           (Scenario.products_world
              [Scenario.answer_status_500 Scenario.server_error_body])
           (r := {| ok := false; json_body := Some Scenario.server_error_body |})
           (rest := [])
           (fields := [("error", JStr "Internal Server Error")])
           eq_refl eq_refl eq_refl).
  exact I.
Defined.

(** ** Witnesses of the invariants above *)

Lemma sortBy_always_offered_witness :
  let st :=
    IntegratedReport.handleReportTypeChange IntegratedReport.inventory
      (IntegratedReport.handleSortByChange IntegratedReport.sort_total
         (IntegratedReport.handleReportTypeChange IntegratedReport.revenue
            (IntegratedReport.initial "2024-01-15"))) in
  IntegratedReport.sortBy (IntegratedReport.reportParams st)
  = IntegratedReport.sort_total_remaining
  /\ In (IntegratedReport.sortBy (IntegratedReport.reportParams st))
        (IntegratedReport.sortBy_options (IntegratedReport.reportType st)).
Proof.
  intros st. split; [reflexivity|].
  apply (@sortBy_always_offered "2024-01-15").
  set (s0 := IntegratedReport.initial "2024-01-15").
  set (s1 := IntegratedReport.handleReportTypeChange IntegratedReport.revenue s0).
  set (s2 := IntegratedReport.handleSortByChange IntegratedReport.sort_total s1).
  assert (R1 : IntegratedReport.reachable s0 s1)
    by exact (@IntegratedReport.reach_step s0 s0 _ s1
                (IntegratedReport.reach_init s0)
                (@IntegratedReport.step_type s0 IntegratedReport.revenue)).
  assert (R2 : IntegratedReport.reachable s0 s2).
  { refine (@IntegratedReport.reach_step s0 s1 _ s2 R1
              (@IntegratedReport.step_sort s1 IntegratedReport.sort_total _)).
    cbn. auto 6. }
  exact (@IntegratedReport.reach_step s0 s2 _ _ R2
           (@IntegratedReport.step_type s2 IntegratedReport.inventory)).
Defined.

Section FailedLines.

Import NoteForms OutcomeFormState.

(** X30. The header is created and the lines are refused, by the
    network or with a status outside 200..299: the form has sent its two
    POSTs and nothing after them (no request takes the header back), no
    callback has run, the cache is as it was and the next answers of the
    server are untouched. *)
Theorem failed_lines_leave_the_header (st : Form) (w : World)
    r1 created answer2 rest :
  server w = Responded r1 :: answer2 :: rest ->
  ok r1 = true ->
  json_body r1 = Some created ->
  (answer2 = NetworkError
   \/ exists r2, answer2 = Responded r2 /\ ok r2 = false) ->
  let w' := handleSubmit st w in
  sent w'
  = (sent w ++ [ outcome_header_request (productsOutcome st);
                 outcome_lines_request (productsOutcome st) (outcomeNotes st) ])%list
  /\ server w' = rest
  /\ callbacks w' = callbacks w
  /\ queries w' = queries w.
Proof.
  intros Hs Hok Hb H2.
  unfold handleSubmit, handleSubmit_outcome, createProductsOutcome_mutationFn,
    createProductsOutcome_onSuccess.
  run_async. world. rewrite Hs. world. rewrite Hok. world. rewrite Hb. world.
  rewrite <- app_assoc.
  destruct H2 as [->|(r2 & -> & Hok2)]; world.
  - repeat split; reflexivity.
  - rewrite Hok2. world. repeat split; reflexivity.
Qed.

Lemma failed_lines_leave_the_header_witness :
  let w :=
    Scenario.outcome_world
      [ Scenario.answer_ok (Scenario.created_header "outcome_note_id");
        Scenario.answer_status_500 Scenario.server_error_body;
        Scenario.answer_ok (JArr []) ] in
  List.map req_method (sent (handleSubmit Scenario.form_with_stale_line w))
  = [POST; POST]
  /\ server (handleSubmit Scenario.form_with_stale_line w)
     = [Scenario.answer_ok (JArr [])].
Proof.
  intros w.
  destruct (failed_lines_leave_the_header Scenario.form_with_stale_line w
              (r1 := {| ok := true;
                        json_body := Some (Scenario.created_header "outcome_note_id") |})
              (answer2 := Scenario.answer_status_500 Scenario.server_error_body)
              (rest := [Scenario.answer_ok (JArr [])])
              eq_refl eq_refl eq_refl
              (or_intror (ex_intro _ {| ok := false;
                                        json_body := Some Scenario.server_error_body |}
                                   (conj eq_refl eq_refl))))
    as (Hsent & Hserver & _).
  split; [rewrite Hsent; reflexivity|exact Hserver].
Defined.

End FailedLines.
